(** * Grat.io: the scoring and classification engine of [grat_io_app.py]

    A shallow embedding of the engine functions of the application
    (criterion classifier, weight tables, point aggregation, the [descontos]
    ledger, tier classification, the per-professional summary, the detail
    page's occurrence counts, edits and rows, and the column and cell
    helpers of the report parser) and the properties checked on them.

    Conventions.
    - A Python [str] is a [string] holding its UTF-8 encoding.  UTF-8 is
      self-synchronising, so the substring test [x in t] on code points is
      the substring test on the encoded bytes.
    - A Python [int] is a [Z].
    - A Python [dict] with string keys and integer values is a
      [gmap string Z]; no statement below depends on the order in which a
      dict is iterated.
    - A nullable cell of a frame or an argument that may be [None] is an
      [option]; where [None], NaN and strings meet (the id of a group key)
      the value is a [pyval]. *)

From Stdlib Require Import ZArith Lia String Ascii.
From stdpp Require Import gmap strings list fin_maps sorting.

Local Open Scope Z_scope.
Local Open Scope string_scope.

(** ** Strings *)

(** [x] is an initial segment of [t]. *)
Fixpoint starts_with (x t : string) : bool :=
  match x, t with
  | EmptyString, _ => true
  | String _ _, EmptyString => false
  | String a x', String c t' => if Ascii.eqb a c then starts_with x' t' else false
  end.

(** [x in t] for two strings: [x] starts at some position of [t]. *)
Fixpoint contains (x t : string) : bool :=
  starts_with x t ||
  match t with
  | EmptyString => false
  | String _ t' => contains x t'
  end.

(** [any(x in t for x in xs)] *)
Definition any_in (xs : list string) (t : string) : bool :=
  existsb (fun x => contains x t) xs.

(** [tipo_text or ""]: a falsy operand ([None] or the empty string) gives
    the right operand. *)
Definition or_empty (tipo_text : option string) : string :=
  match tipo_text with
  | None => ""
  | Some s => if decide (s = "") then "" else s
  end.

(** [str.lower] on the letters of Basic Latin and Latin-1 Supplement, on the
    UTF-8 encoding: [A]-[Z] are one byte, U+00C0-U+00DE (without the
    multiplication sign U+00D7) are the byte 0xC3 followed by 0x80-0x9E.
    Used to run the classifier on concrete labels; the general statements
    take [str.lower] as a parameter. *)
Definition lower_ascii (a : ascii) : ascii :=
  let n := N_of_ascii a in
  if ((65 <=? n) && (n <=? 90))%N then ascii_of_N (n + 32) else a.

Definition lower_c3 (b : ascii) : ascii :=
  let n := N_of_ascii b in
  if ((128 <=? n) && (n <=? 158) && negb (n =? 151))%N
  then ascii_of_N (n + 32) else b.

Fixpoint lower_latin1 (s : string) : string :=
  match s with
  | EmptyString => EmptyString
  | String a s' =>
      if (N_of_ascii a =? 195)%N then
        match s' with
        | EmptyString => String a EmptyString
        | String b s'' => String a (String (lower_c3 b) (lower_latin1 s''))
        end
      else String (lower_ascii a) (lower_latin1 s')
  end.

(** ** Scoring rules (base PSF) *)

Definition WEIGHTS_POSITIVOS : gmap string Z :=
  list_to_map
    [ ("dias_25_vagas", 20);
      ("dias_demanda_8", 10);
      ("visita_domiciliar", 8);
      ("semanas_encaminho_ate15", 100);
      ("semanas_encaminho_acima15", 300);
      ("dias_lme", 15);
      ("reunioes", 20);
      ("capacitacoes", 30);
      ("especialidades_basicas", 36);
      ("dias_lancados_sistema", 10) ].

Definition WEIGHTS_NEGATIVOS : gmap string Z :=
  list_to_map
    [ ("falta_meio", 300);
      ("falta_dia", 400);
      ("falta_aso", 0);
      ("falta_injust", 1650);
      ("nao_especialidade", 12);
      ("nao_uso_sistema", 210);
      ("nao_25_vagas", 1000);
      ("recusa_atendimento", 1000) ].

Section Classifier.

(** [str.lower] is Python's, not the repository's: a parameter. *)
Variable lower : string -> string.

Definition map_tipo_para_criterio (tipo_text : option string) : string :=
  let t := lower (or_empty tipo_text) in
  if contains "visita" t then "visita_domiciliar"
  else if contains "pré" t || contains "pre" t then
    if contains "lme" t || contains "receita" t || contains "renov" t
    then "dias_lme"
    else "pre_natal"
  else if contains "demanda" t then "dias_demanda_8"
  else if any_in ["pediatria"; "ginecologia"; "clínica"; "clinica";
                  "medicina"; "hipertensão"; "hipertensao"; "diabetes"] t
  then "especialidades_basicas"
  else if any_in ["reunião"; "reuniao"; "reunioes"; "reuniões"] t
  then "reunioes"
  else if any_in ["capacita"; "curso"] t then "capacitacoes"
  else if any_in ["lme"; "receita"; "renovacao"; "renovação"] t
  then "dias_lme"
  else if any_in ["lançado"; "lancad"; "maestro"; "sistema"] t
  then "dias_lancados_sistema"
  else if contains "consulta" t then "consulta"
  else "outros".

End Classifier.

(** [calcula_pontos_positivos_from_summary]: the loop over the items of
    [summary_counts] adds [WEIGHTS_POSITIVOS[crit] * cnt] for the criteria
    of the table. *)
Definition calcula_pontos_positivos_from_summary
    (summary_counts : gmap string Z) : Z :=
  map_fold
    (fun crit cnt pts =>
       match WEIGHTS_POSITIVOS !! crit with
       | Some w => pts + w * cnt
       | None => pts
       end)
    0 summary_counts.

Definition classify_points (pontos_final : Z) : string :=
  if ((650 <=? pontos_final) && (pontos_final <=? 850))%Z
  then "Tem direito - Gratificação Tipo I"
  else if ((851 <=? pontos_final) && (pontos_final <=? 950))%Z
  then "Tem direito - Gratificação Tipo II"
  else if ((951 <=? pontos_final) && (pontos_final <=? 1050))%Z
  then "Tem direito - Gratificação Tipo III"
  else if ((1051 <=? pontos_final) && (pontos_final <=? 1150))%Z
  then "Tem direito - Gratificação Tipo IV"
  else if (1151 <=? pontos_final)%Z
  then "Tem direito - Gratificação Tipo V"
  else "Não tem direito".

(** ** The [descontos] ledger

    The table of [init_db]: columns [id] (INTEGER PRIMARY KEY
    AUTOINCREMENT), [profissional_id], [period], [campo], [valor], with
    [UNIQUE(profissional_id, period, campo)].  The database state is passed
    explicitly: the rows in table order and the AUTOINCREMENT counter. *)

Record desconto : Type := Desconto {
  d_id : Z;
  d_profissional_id : string;
  d_period : string;
  d_campo : string;
  d_valor : Z
}.

Record database : Type := Database {
  descontos : list desconto;
  descontos_seq : Z
}.

(** The unique key of a row. *)
Definition d_key (r : desconto) : string * string * string :=
  (d_profissional_id r, d_period r, d_campo r).

(** [init_db] on a fresh database file: the table exists and is empty.  (On
    an existing file CREATE TABLE IF NOT EXISTS leaves the table as it is.) *)
Definition init_db : database :=
  {| descontos := []; descontos_seq := 0 |}.

(** [INSERT OR REPLACE INTO descontos (profissional_id, period, campo, valor)
    VALUES (?, ?, ?, ?)]: the rows that conflict with the new one on the
    UNIQUE columns are deleted, then the new row is inserted under the next
    AUTOINCREMENT id (larger than every id used before, so no row conflicts
    on the primary key). *)
Definition insert_or_replace
    (profissional_id period campo : string) (valor : Z) (db : database)
    : database :=
  let id := descontos_seq db + 1 in
  {| descontos :=
       filter (fun r => d_key r <> (profissional_id, period, campo))
              (descontos db)
       ++ [Desconto id profissional_id period campo valor];
     descontos_seq := id |}.

(** [save_descontos]: nothing is done for an empty (falsy) dict; otherwise
    one INSERT OR REPLACE per item.  The items are distinct criteria, so the
    order of the loop decides row ids only, which nothing reads. *)
Definition save_descontos
    (profissional_id period : string) (descontos_dict : gmap string Z)
    (db : database) : database :=
  if decide (descontos_dict = ∅) then db
  else
    map_fold
      (fun campo valor db =>
         insert_or_replace profissional_id period campo valor db)
      db descontos_dict.

(** [SELECT campo, valor FROM descontos WHERE profissional_id=? AND period=?]
    and the dict comprehension over the rows (a later row with the same
    [campo] would overwrite an earlier one). *)
Definition select_descontos
    (profissional_id period : string) (db : database) : list desconto :=
  filter (fun r => d_profissional_id r = profissional_id /\ d_period r = period)
         (descontos db).

(** One step of [{r[0]: r[1] for r in rows}]. *)
Definition put_row (m : gmap string Z) (r : desconto) : gmap string Z :=
  <[d_campo r := d_valor r]> m.

Definition load_descontos
    (profissional_id period : string) (db : database) : gmap string Z :=
  foldl put_row ∅ (select_descontos profissional_id period db).

(** [sum(d.values())] *)
Definition sum_values (d : gmap string Z) : Z :=
  map_fold (fun _ v acc => acc + v) 0 d.

(** ** Detail page: occurrence count shown for a saved discount *)

(** [int(descontos_salvos.get(campo, 0))] *)
Definition saved_val (descontos_salvos : gmap string Z) (campo : string) : Z :=
  default 0 (descontos_salvos !! campo).

(** [saved_val // peso if peso and peso > 0 else saved_val]; Python's [//]
    on integers is floor division, as [Z.div] is. *)
Definition initial_count
    (descontos_salvos : gmap string Z) (campo : string) (peso : Z) : Z :=
  let saved_val := saved_val descontos_salvos campo in
  if bool_decide (peso <> 0) && (0 <? peso)%Z
  then saved_val `div` peso
  else saved_val.

(** [int(count) * int(peso)] *)
Definition computed_val (count peso : Z) : Z := count * peso.

(** ** Summary per professional *)

(** A row of the [atendimentos] frame, with the columns the summary reads.
    [profissional_id] and [tipo] are nullable TEXT columns ([None] is a
    missing cell); [quantidade] is [None] where [pd.notnull] is false. *)
Record atendimento : Type := Atendimento {
  a_profissional_id : option string;
  a_profissional : string;
  a_tipo : option string;
  a_quantidade : option Z
}.

(** The values the id of a group key and the two name columns of a summary
    row can hold: [None], the float NaN, or a string. *)
Inductive pyval : Type :=
| PNone
| PNaN
| PStr (s : string).

Record resumo : Type := Resumo {
  r_profissional_id : pyval;
  r_profissional : pyval;
  r_crit_counts : gmap string Z;
  r_pontos_positivos : Z;
  r_pontos_negativos : Z;
  r_pontos_finais : Z;
  r_classificacao : string
}.

#[global] Instance atendimento_eq_dec : EqDecision atendimento.
Proof. solve_decision. Defined.

#[global] Instance pyval_eq_dec : EqDecision pyval.
Proof. solve_decision. Defined.

(** How [groupby(..., dropna=False)] hands the cell of a key column to the
    loop: the missing cells form one group, whose key is NaN. *)
Definition key_cell (x : option string) : pyval :=
  match x with
  | Some s => PStr s
  | None => PNaN
  end.

(** The grouping key of [df.groupby(["profissional_id", "profissional"],
    dropna=False)]. *)
Definition group_key (r : atendimento) : pyval * string :=
  (key_cell (a_profissional_id r), a_profissional r).

(** The order of the groups: by id, strings in code point order (the order
    of their UTF-8 encodings) and NaN last, then by name. *)
Definition pyval_leb (x y : pyval) : bool :=
  match x, y with
  | PStr a, PStr b => String.leb a b
  | PStr _, _ => true
  | _, PStr _ => false
  | _, _ => true
  end.

Definition key_leb (k1 k2 : pyval * string) : bool :=
  if decide (k1.1 = k2.1) then String.leb k1.2 k2.2 else pyval_leb k1.1 k2.1.

Definition key_le (k1 k2 : pyval * string) : Prop := key_leb k1 k2 = true.

#[global] Instance key_le_dec (k1 k2 : pyval * string) : Decision (key_le k1 k2).
Proof. unfold key_le. apply _. Defined.

(** The groups of [groupby] (sort=True): one per distinct key, in key
    order, each with the rows of that key in frame order. *)
Definition groupby (df : list atendimento)
    : list ((pyval * string) * list atendimento) :=
  (fun k => (k, filter (fun r => group_key r = k) df))
    <$> merge_sort key_le (remove_dups (group_key <$> df)).

(** [pid in (None, "", "None")]: [None] is found by identity and the two
    strings by equality; NaN is equal to no member. *)
Definition in_absent (pid : pyval) : bool :=
  match pid with
  | PNone => true
  | PNaN => false
  | PStr s => bool_decide (s = "") || bool_decide (s = "None")
  end.

(** [pnome not in (None, "", "None")] for a name that is a string *)
Definition pnome_present (pnome : string) : bool :=
  negb (bool_decide (pnome = "") || bool_decide (pnome = "None")).

(** [key_id = pid if pid not in (None, "", "None") else pnome] *)
Definition key_id (pid : pyval) (pnome : string) : pyval :=
  if in_absent pid then PStr pnome else pid.

(** [load_descontos(key_id, selected_period)] with the key the loop has.
    sqlite3 binds [None] and NaN as NULL, and [profissional_id = NULL] holds
    of no row, so the SELECT returns nothing for them. *)
Definition load_descontos_key
    (key_id : pyval) (period : string) (db : database) : gmap string Z :=
  match key_id with
  | PStr k => load_descontos k period db
  | PNone | PNaN => ∅
  end.

Section Summary.

Variable lower : string -> string.

(** The counting loop over the rows of a group:
    [crit_counts[crit] = crit_counts.get(crit, 0) + int(r["quantidade"])
     if pd.notnull(r["quantidade"]) else crit_counts.get(crit, 0)]. *)
Definition count_row (crit_counts : gmap string Z) (r : atendimento)
    : gmap string Z :=
  let crit := map_tipo_para_criterio lower (a_tipo r) in
  match a_quantidade r with
  | Some q => <[crit := default 0 (crit_counts !! crit) + q]> crit_counts
  | None => <[crit := default 0 (crit_counts !! crit)]> crit_counts
  end.

Definition crit_counts_of (g : list atendimento) : gmap string Z :=
  foldl count_row ∅ g.

(** The body of the loop over the groups: one summary row. *)
Definition resumo_row (db : database) (selected_period : string)
    (pid : pyval) (pnome : string) (g : list atendimento) : resumo :=
  let crit_counts := crit_counts_of g in
  let pontos_pos := calcula_pontos_positivos_from_summary crit_counts in
  let key_id := key_id pid pnome in
  let descontos_salvos := load_descontos_key key_id selected_period db in
  let pontos_neg :=
    if decide (descontos_salvos = ∅) then 0 else sum_values descontos_salvos in
  let pontos_final := pontos_pos - pontos_neg in
  let classific := classify_points pontos_final in
  {| r_profissional_id := key_id;
     r_profissional := if pnome_present pnome then PStr pnome else key_id;
     r_crit_counts := crit_counts;
     r_pontos_positivos := pontos_pos;
     r_pontos_negativos := pontos_neg;
     r_pontos_finais := pontos_final;
     r_classificacao := classific |}.

(** [resumo_por_profissional(df)]; the database it reads through
    [load_descontos] and the period it closes over are arguments.  The
    result is the list of rows of the returned frame (an empty frame with
    the seven columns when there is no row). *)
Definition resumo_por_profissional (db : database) (selected_period : string)
    (df : list atendimento) : list resumo :=
  (fun '(pid, pnome, g) => resumo_row db selected_period pid pnome g)
    <$> groupby df.

End Summary.

(** ** Reference definitions the code is compared with *)

(** [x] occurs in [t]. *)
Definition occurs (x t : string) : Prop := exists a b, t = a ++ x ++ b.

(** The priority chain of the classifier, from the specification: rules 1
    to 10 in order, each with its condition and its criterion; rule 11 is
    the residual criterion ["outros"].  A condition is a conjunction of
    alternatives: every list of keywords must have a keyword that occurs in
    the lowercased label. *)
Definition rule : Type := list (list string) * string.

Definition priority_chain : list rule :=
  [ ([["visita"]], "visita_domiciliar");
    ([["pré"; "pre"]; ["lme"; "receita"; "renov"]], "dias_lme");
    ([["pré"; "pre"]], "pre_natal");
    ([["demanda"]], "dias_demanda_8");
    ([["pediatria"; "ginecologia"; "clínica"; "clinica"; "medicina";
       "hipertensão"; "hipertensao"; "diabetes"]],
     "especialidades_basicas");
    ([["reunião"; "reuniao"; "reunioes"; "reuniões"]], "reunioes");
    ([["capacita"; "curso"]], "capacitacoes");
    ([["lme"; "receita"; "renovacao"; "renovação"]], "dias_lme");
    ([["lançado"; "lancad"; "maestro"; "sistema"]], "dias_lancados_sistema");
    ([["consulta"]], "consulta") ].

Definition rule_matches (r : rule) (t : string) : Prop :=
  Forall (fun alts => Exists (fun x => occurs x t) alts) r.1.

(** Rule [i] of [rs], of criterion [c], is the earliest rule that matches. *)
Definition earliest_match (rs : list rule) (t : string) (i : nat) (c : string)
    : Prop :=
  (exists conds, rs !! i = Some (conds, c) /\ rule_matches (conds, c) t) /\
  forall j r, (j < i)%nat -> rs !! j = Some r -> ~ rule_matches r t.

Definition no_match (rs : list rule) (t : string) : Prop :=
  forall j r, rs !! j = Some r -> ~ rule_matches r t.

(** The chain run on a label: the test of a rule with [contains], and the
    criterion of the first rule whose test succeeds. *)
Definition rule_test (r : rule) (t : string) : bool :=
  forallb (fun alts => existsb (fun x => contains x t) alts) r.1.

Fixpoint chain_eval (rs : list rule) (t : string) : string :=
  match rs with
  | [] => "outros"
  | r :: rs' => if rule_test r t then r.2 else chain_eval rs' t
  end.

(** The count of a criterion in a summary, 0 when it is absent. *)
Definition count_of (summary_counts : gmap string Z) (crit : string) : Z :=
  default 0 (summary_counts !! crit).

(** The weight of a criterion, 0 when the table has no entry for it. *)
Definition weight_of (crit : string) : Z :=
  default 0 (WEIGHTS_POSITIVOS !! crit).

(** The positive points as the sum, over the ten criteria of the table, of
    count times per-unit weight. *)
Definition pontos_spec (summary_counts : gmap string Z) : Z :=
  20 * count_of summary_counts "dias_25_vagas"
  + 10 * count_of summary_counts "dias_demanda_8"
  + 8 * count_of summary_counts "visita_domiciliar"
  + 100 * count_of summary_counts "semanas_encaminho_ate15"
  + 300 * count_of summary_counts "semanas_encaminho_acima15"
  + 15 * count_of summary_counts "dias_lme"
  + 20 * count_of summary_counts "reunioes"
  + 30 * count_of summary_counts "capacitacoes"
  + 36 * count_of summary_counts "especialidades_basicas"
  + 10 * count_of summary_counts "dias_lancados_sistema".

(** The professional key as the specification words it: the id when present
    and non-empty, else the name. *)
Definition professional_key_spec (pid : option string) (pnome : string) : string :=
  match pid with
  | Some s => if decide (s = "") then pnome else s
  | None => pnome
  end.

(** The ledger states the application can reach: the fresh database of
    [init_db], then any sequence of [save_descontos] calls. *)
Inductive reachable : database -> Prop :=
| reachable_init : reachable init_db
| reachable_save db profissional_id period descontos_dict :
    reachable db ->
    reachable (save_descontos profissional_id period descontos_dict db).

(** At most one stored entry per (profissional_id, period, campo). *)
Definition unique_keys (db : database) : Prop :=
  NoDup (d_key <$> descontos db).


(** ** Definitions for the further properties *)

(** The rank of a label of [classify_points]: 0 for "Não tem direito", 1 to
    5 for Tipo I to Tipo V. *)
Definition tier_rank (label : string) : nat :=
  if decide (label = "Tem direito - Gratificação Tipo I") then 1
  else if decide (label = "Tem direito - Gratificação Tipo II") then 2
  else if decide (label = "Tem direito - Gratificação Tipo III") then 3
  else if decide (label = "Tem direito - Gratificação Tipo IV") then 4
  else if decide (label = "Tem direito - Gratificação Tipo V") then 5
  else 0.

(** The sum of the quantities of the rows of a criterion, a missing
    quantity counting as 0. *)
Definition quantity_sum (crit_of : option string -> string) (crit : string)
    (g : list atendimento) : Z :=
  foldr Z.add 0
    ((fun r => default 0 (a_quantidade r))
       <$> filter (fun r => crit_of (a_tipo r) = crit) g).

(** The criteria the classifier can return. *)
Definition criteria : list string :=
  [ "visita_domiciliar"; "dias_lme"; "pre_natal"; "dias_demanda_8";
    "especialidades_basicas"; "reunioes"; "capacitacoes";
    "dias_lancados_sistema"; "consulta"; "outros" ].

(** The primary key of the [descontos] table: the ids of the rows are
    distinct, positive and not above the AUTOINCREMENT counter. *)
Definition ids_ok (db : database) : Prop :=
  0 <= descontos_seq db /\
  NoDup (d_id <$> descontos db) /\
  Forall (fun r => 0 < d_id r <= descontos_seq db) (descontos db).

(** The points of one row: the weight of its criterion times its quantity,
    a missing quantity counting as 0. *)
Definition row_points (crit_of : option string -> string) (r : atendimento) : Z :=
  weight_of (crit_of (a_tipo r)) * default 0 (a_quantidade r).

(** ** Detail page: the edited discounts *)

(** [edits]: for every criterion of [WEIGHTS_NEGATIVOS], the number of
    occurrences entered in its [number_input] times its weight.  [count]
    gives the number entered for each criterion. *)
Definition edits (count : string -> Z) : gmap string Z :=
  map_imap (fun campo peso => Some (computed_val (count campo) peso))
           WEIGHTS_NEGATIVOS.

(** The number a [number_input] shows when the page opens: the
    [initial_count] of the saved discount under the weight of the table. *)
Definition shown_count (descontos_salvos : gmap string Z) (campo : string) : Z :=
  initial_count descontos_salvos campo (default 0 (WEIGHTS_NEGATIVOS !! campo)).

(** "Salvar descontos para este profissional": the edits are saved. *)
Definition salvar (prof_id period : string) (count : string -> Z)
    (db : database) : database :=
  save_descontos prof_id period (edits count) db.

(** The ledger states the application reaches: [save_descontos] is called
    from the save button only, with the edits of the page, whose
    [number_input]s have [min_value=0].  (The button is shown when
    [df_prof] is not empty, which takes a key that is a string.) *)
Inductive app_reachable : database -> Prop :=
| app_reachable_init : app_reachable init_db
| app_reachable_salvar db prof_id period count :
    app_reachable db ->
    (forall campo, 0 <= count campo) ->
    app_reachable (salvar prof_id period count db).

(** A stored row written by the page: a criterion of the table, with a
    value that is a non-negative number of occurrences times its weight. *)
Definition row_from_page (r : desconto) : Prop :=
  exists peso n, WEIGHTS_NEGATIVOS !! d_campo r = Some peso /\
                 0 <= n /\ d_valor r = n * peso.


(** A ledger after one save from the page: two whole-day absences entered
    for professional 3321 in March 2025, nothing else. *)
Definition page_db : database :=
  salvar "3321" "2025-03"
    (fun campo => if decide (campo = "falta_dia") then 2 else 0) init_db.

(** A ledger holding a value that is not a multiple of the weight of its
    criterion (500 under [falta_dia], of weight 400). *)
Definition odd_db : database :=
  save_descontos "3321" "2025-03" {[ "falta_dia" := 500 ]} init_db.

(** ** Report parsing helpers *)

(** [str.strip] on ASCII white space (tab to carriage return, the four
    separators 0x1C-0x1F and the space), used to run the parser on concrete
    cells; the general statements take [str.strip] as a parameter. *)
Definition is_space (a : ascii) : bool :=
  let n := N_of_ascii a in
  ((9 <=? n) && (n <=? 13) || (28 <=? n) && (n <=? 32))%N.

Fixpoint lstrip (s : string) : string :=
  match s with
  | EmptyString => EmptyString
  | String a s' => if is_space a then lstrip s' else s
  end.

Fixpoint rstrip (s : string) : string :=
  match s with
  | EmptyString => EmptyString
  | String a s' =>
      match rstrip s' with
      | EmptyString => if is_space a then EmptyString else String a EmptyString
      | String b r => String a (String b r)
      end
  end.

Definition strip_ascii (s : string) : string := rstrip (lstrip s).

(** [p.split("-", 1)] for a [p] with ["-" in p]: the text before the first
    hyphen and the text after it; [None] when [p] has no hyphen. *)
Fixpoint split_hyphen (p : string) : option (string * string) :=
  match p with
  | EmptyString => None
  | String a p' =>
      if Ascii.eqb a "-" then Some (EmptyString, p')
      else match split_hyphen p' with
           | Some (x, y) => Some (String a x, y)
           | None => None
           end
  end.

Section Parsing.

(** [str.lower] and [str.strip] are Python's: parameters. *)
Variable lower : string -> string.
Variable strip : string -> string.

(** [try_find_column(df, candidates)] on the column names of the frame:
    for the candidates in order, [cand.lower() in cols_low] and
    [cols[cols_low.index(cand.lower())]]. *)
Fixpoint try_find_column (cols candidates : list string) : option string :=
  match candidates with
  | [] => None
  | cand :: candidates' =>
      match list_find (fun c => c = lower cand) (lower <$> cols) with
      | Some (i, _) => cols !! i
      | None => try_find_column cols candidates'
      end
  end.

(** The positional fallback of [parse_xlsx]:
    [if col is None and df.shape[1] >= n + 1: col = df.columns[n]]. *)
Definition column_or_position
    (cols candidates : list string) (n : nat) : option string :=
  match try_find_column cols candidates with
  | Some c => Some c
  | None => cols !! n
  end.

(** [split_prof(p)] of [parse_xlsx]. *)
Definition split_prof (p : option string) : option string * string :=
  match p with
  | None => (None, "")
  | Some p =>
      let p := strip p in
      match split_hyphen p with
      | Some (a, b) => (Some (strip a), strip b)
      | None => (None, p)
      end
  end.

(** [x[0] if x and x[0] != "" else None] with the id [None] kept [None]. *)
Definition split_id (x : option string * string) : option string :=
  match x.1 with
  | Some s => if decide (s = "") then None else Some s
  | None => None
  end.

(** [x[1] if x and x[1] != "" else None] *)
Definition split_nome (x : option string * string) : option string :=
  if decide (x.2 = "") then None else Some x.2.

(** The three columns [parse_xlsx] derives from one cell of the professional
    column: [profissional_id], and [profissional], which is the extracted
    name when there is one and the cell as read otherwise. *)
Definition parse_profissional (cell : string) : option string * string :=
  let x := split_prof (Some cell) in
  (split_id x,
   match split_nome x with
   | Some nome => nome
   | None => cell
   end).

End Parsing.

(** ** Detail page: the rows shown *)

(** A row of [all_data]: the columns of [atendimento] and the period. *)
Record linha : Type := Linha {
  l_atendimento : atendimento;
  l_period : option string
}.

(** [all_data[all_data["period"] == selected_period]] *)
Definition data_period (selected_period : string) (all_data : list linha)
    : list atendimento :=
  l_atendimento
    <$> filter (fun l => l_period l = Some selected_period) all_data.

(** [df_prof]: the rows whose [profissional_id] or [profissional] is
    [prof_id], then those of the period. *)
Definition df_prof (prof_id period : string) (all_data : list linha)
    : list atendimento :=
  l_atendimento
    <$> filter (fun l => l_period l = Some period)
          (filter (fun l => a_profissional_id (l_atendimento l) = Some prof_id
                            \/ a_profissional (l_atendimento l) = prof_id)
                  all_data).


(** Three rows of March 2025 and one of April: two of professional 3321,
    one of a professional without id whose name is "3321", and one of
    professional 3321 in the other month. *)
Definition sample_all_data : list linha :=
  [ Linha (Atendimento (Some "3321") "ANA" (Some "Consulta") (Some 20))
          (Some "2025-03");
    Linha (Atendimento None "3321" (Some "Pediatria") (Some 6))
          (Some "2025-03");
    Linha (Atendimento (Some "3321") "ANA" (Some "Visita domiciliar") (Some 2))
          (Some "2025-03");
    Linha (Atendimento (Some "3321") "ANA" (Some "Reunião") (Some 1))
          (Some "2025-04") ].

(** ** Sample inputs *)

(** The rows of [parse_pdf_placeholder]. *)
Definition sample_df : list atendimento :=
  let pid := Some "3321" in
  let pnome := "3321 - ANDERSON HERMENGILDO LUIZ PINTO" in
  [ Atendimento pid pnome (Some "Consulta") (Some 20);
    Atendimento pid pnome (Some "Demanda espontânea") (Some 13);
    Atendimento pid pnome (Some "Pediatria") (Some 6);
    Atendimento pid pnome (Some "Pré Natal") (Some 2);
    Atendimento pid pnome (Some "Visita domiciliar") (Some 2) ].

(** A ledger with one saved discount for that professional in March 2025. *)
Definition sample_db : database :=
  save_descontos "3321" "2025-03" {[ "falta_dia" := 400 ]} init_db.

(** A row whose quantity is negative. *)
Definition negative_df : list atendimento :=
  [ Atendimento (Some "3321") "ANA" (Some "Visita domiciliar") (Some (-5)) ].

(** A row whose id is the string "None". *)
Definition none_id_df : list atendimento :=
  [ Atendimento (Some "None") "ANA" (Some "Consulta") (Some 3) ].

(** A row without id, and a ledger with a discount recorded under the
    name of its professional. *)
Definition no_id_df : list atendimento :=
  [ Atendimento None "ANA" (Some "Visita domiciliar") (Some 2) ].

Definition name_db : database :=
  save_descontos "ANA" "2025-03" {[ "falta_dia" := 400 ]} init_db.

(** * Properties *)

(** ** Substring test *)

Lemma append_nil_l (t : string) : "" ++ t = t.
Proof. reflexivity. Qed.

Lemma append_cons (c : ascii) (a t : string) :
  String c a ++ t = String c (a ++ t).
Proof. reflexivity. Qed.

Lemma starts_with_spec (x t : string) :
  starts_with x t = true <-> exists b, t = x ++ b.
Proof.
  revert t. induction x as [|a x IH]; intros t; simpl.
  - split; [intros _; exists t; reflexivity | done].
  - destruct t as [|c t].
    + split; [done | intros [b Hb]; rewrite append_cons in Hb; discriminate].
    + destruct (Ascii.eqb_spec a c) as [->|Hne].
      * rewrite IH. split; intros [b Hb]; exists b.
        -- rewrite append_cons. congruence.
        -- rewrite append_cons in Hb. congruence.
      * split; [done | intros [b Hb]; rewrite append_cons in Hb; congruence].
Qed.

(** [contains x t] holds exactly when [t] is [a ++ x ++ b] for some [a], [b]. *)
Lemma contains_spec (x t : string) :
  contains x t = true <-> exists a b, t = a ++ x ++ b.
Proof.
  induction t as [|c t IH]; simpl.
  - rewrite orb_false_r, starts_with_spec. split.
    + intros [b Hb]. exists "", b. by rewrite append_nil_l.
    + intros [a [b Hb]]. destruct a.
      * exists b. by rewrite append_nil_l in Hb.
      * rewrite append_cons in Hb. discriminate.
  - rewrite orb_true_iff, starts_with_spec, IH. split.
    + intros [[b Hb] | [a [b Hb]]].
      * exists "", b. by rewrite append_nil_l.
      * exists (String c a), b. rewrite append_cons. by rewrite Hb.
    + intros [a [b Hb]]. destruct a as [|c' a].
      * left. exists b. by rewrite append_nil_l in Hb.
      * right. exists a, b. rewrite append_cons in Hb. congruence.
Qed.

(** ** Criterion classifier *)

Lemma occurs_contains (x t : string) : occurs x t <-> contains x t = true.
Proof. unfold occurs. by rewrite contains_spec. Qed.

Lemma rule_test_spec (r : rule) (t : string) :
  rule_test r t = true <-> rule_matches r t.
Proof.
  unfold rule_test, rule_matches. rewrite forallb_forall, Forall_forall.
  split; intros Hall alts Halts.
  - apply list_elem_of_In, Hall in Halts.
    apply existsb_exists in Halts as (x & Hx & Hc).
    apply Exists_exists. exists x. split; [by apply list_elem_of_In |].
    by apply occurs_contains.
  - apply list_elem_of_In, Hall, Exists_exists in Halts as (x & Hx & Hc).
    apply existsb_exists. exists x. split; [by apply list_elem_of_In |].
    by apply occurs_contains.
Qed.

Lemma rule_test_false (r : rule) (t : string) :
  rule_test r t = false <-> ~ rule_matches r t.
Proof.
  rewrite <- rule_test_spec. by destruct (rule_test r t).
Qed.

Lemma chain_eval_earliest (rs : list rule) (t : string) (i : nat) (c : string) :
  earliest_match rs t i c -> chain_eval rs t = c.
Proof.
  revert i. induction rs as [|r rs IH]; intros i [(conds & Hi & Hm) Hj].
  - by rewrite lookup_nil in Hi.
  - destruct i as [|i]; simpl in *.
    + injection Hi as ->. apply rule_test_spec in Hm. by rewrite Hm.
    + rewrite (proj2 (rule_test_false r t)) by (apply (Hj 0%nat); [lia | done]).
      apply (IH i). split; [by exists conds |].
      intros j r' Hlt Hr'. apply (Hj (S j)); [lia | done].
Qed.

Lemma chain_eval_no_match (rs : list rule) (t : string) :
  no_match rs t -> chain_eval rs t = "outros".
Proof.
  induction rs as [|r rs IH]; intros Hno; [done |]. simpl.
  rewrite (proj2 (rule_test_false r t)) by (by apply (Hno 0%nat)).
  apply IH. intros j r' Hr'. by apply (Hno (S j)).
Qed.

Lemma earliest_or_none (rs : list rule) (t : string) :
  (exists i c, earliest_match rs t i c) \/ no_match rs t.
Proof.
  induction rs as [|[conds c] rs IH].
  - right. intros j r Hr. by rewrite lookup_nil in Hr.
  - destruct (rule_test (conds, c) t) eqn:Htest.
    + left. exists 0%nat, c. split.
      * exists conds. split; [done | by apply rule_test_spec].
      * intros j r Hlt. lia.
    + apply rule_test_false in Htest.
      destruct IH as [(i & c' & (conds' & Hi & Hm) & Hj) | Hno].
      * left. exists (S i), c'. split; [by exists conds' |].
        intros [|j] r Hlt Hr; simpl in Hr.
        -- by injection Hr as <-.
        -- apply (Hj j); [lia | done].
      * right. intros [|j] r Hr; simpl in Hr.
        -- by injection Hr as <-.
        -- by apply (Hno j).
Qed.

(** The chain of tests of the code computes the priority chain. *)
Lemma map_tipo_chain_eval (lower : string -> string) (tipo_text : option string) :
  map_tipo_para_criterio lower tipo_text
  = chain_eval priority_chain (lower (or_empty tipo_text)).
Proof.
  unfold map_tipo_para_criterio, priority_chain, any_in.
  set (t := lower (or_empty tipo_text)).
  cbn [chain_eval rule_test forallb existsb fst snd].
  rewrite !orb_false_r, !andb_true_r.
  destruct (contains "visita" t); [done |].
  destruct (contains "pré" t), (contains "pre" t); simpl;
    try (by destruct (contains "lme" t), (contains "receita" t),
              (contains "renov" t)).
Qed.

(** C1. The criterion classifier is a total function of the label: on the
    lowercased label it returns the criterion of the earliest rule of the
    priority chain whose keywords occur in it, and ["outros"] when no rule
    matches; one of the two is always the case.  So the answer depends on
    the label through its lowercase form only.  A label with "pré" and
    "lme" is never [pre_natal] (rule 2 precedes rule 3), and a label with
    "pré" and "demanda" is never [dias_demanda_8] (rules 2 and 3 precede
    rule 4).  One label for each rule is run at the end. *)
Theorem C1_classifier_first_match
    (lower : string -> string) (tipo_text : option string) :
  let t := lower (or_empty tipo_text) in
  let crit := map_tipo_para_criterio lower tipo_text in
  length priority_chain = 10%nat /\
  (forall i c, earliest_match priority_chain t i c -> crit = c) /\
  (no_match priority_chain t -> crit = "outros") /\
  ((exists i c, earliest_match priority_chain t i c) \/
   no_match priority_chain t) /\
  (forall other, lower (or_empty other) = t ->
                 map_tipo_para_criterio lower other = crit) /\
  (occurs "pré" t -> occurs "lme" t ->
   crit <> "pre_natal" /\ (crit = "dias_lme" \/ crit = "visita_domiciliar")) /\
  (occurs "pré" t -> occurs "demanda" t ->
   crit <> "dias_demanda_8" /\
   (crit = "dias_lme" \/ crit = "pre_natal" \/ crit = "visita_domiciliar")) /\
  map_tipo_para_criterio lower_latin1 (Some "Visita domiciliar")
  = "visita_domiciliar" /\
  map_tipo_para_criterio lower_latin1 (Some "Pré Natal LME") = "dias_lme" /\
  map_tipo_para_criterio lower_latin1 (Some "PRÉ NATAL") = "pre_natal" /\
  map_tipo_para_criterio lower_latin1 (Some "Pré-natal demanda espontânea")
  = "pre_natal" /\
  map_tipo_para_criterio lower_latin1 (Some "Demanda espontânea")
  = "dias_demanda_8" /\
  map_tipo_para_criterio lower_latin1 (Some "Pediatria")
  = "especialidades_basicas" /\
  map_tipo_para_criterio lower_latin1 (Some "Reunião de equipe") = "reunioes" /\
  map_tipo_para_criterio lower_latin1 (Some "Curso de atualização")
  = "capacitacoes" /\
  map_tipo_para_criterio lower_latin1 (Some "Renovação de receita")
  = "dias_lme" /\
  map_tipo_para_criterio lower_latin1 (Some "Lançado no Maestro")
  = "dias_lancados_sistema" /\
  map_tipo_para_criterio lower_latin1 (Some "Consulta") = "consulta" /\
  map_tipo_para_criterio lower_latin1 (Some "Exame") = "outros".
Proof.
  intros t crit.
  assert (Hce : crit = chain_eval priority_chain t) by apply map_tipo_chain_eval.
  split; [reflexivity |].
  split; [intros i c Hi; rewrite Hce; by apply (chain_eval_earliest _ _ i) |].
  split; [intros Hno; rewrite Hce; by apply chain_eval_no_match |].
  split; [apply earliest_or_none |].
  split.
  { intros other Hother. unfold crit, map_tipo_para_criterio.
    fold t. by rewrite Hother. }
  split.
  { intros Hpre Hlme. apply occurs_contains in Hpre, Hlme.
    unfold crit, map_tipo_para_criterio. fold t. rewrite Hpre, Hlme. simpl.
    destruct (contains "visita" t); split; (discriminate || auto). }
  split.
  { intros Hpre _. apply occurs_contains in Hpre.
    unfold crit, map_tipo_para_criterio. fold t. rewrite Hpre. simpl.
    destruct (contains "visita" t);
      [| destruct (contains "lme" t || contains "receita" t || contains "renov" t)];
      split; (discriminate || auto). }
  repeat split; vm_compute; reflexivity.
Qed.

Lemma C1_witness :
  map_tipo_para_criterio lower_latin1 (Some "Hipertensão e Diabetes")
  = "especialidades_basicas".
Proof.
  destruct (C1_classifier_first_match lower_latin1 (Some "Hipertensão e Diabetes"))
    as (_ & Hearliest & _).
  apply (Hearliest 4%nat). split.
  - eexists. split; [reflexivity |].
    apply rule_test_spec. vm_compute. reflexivity.
  - intros j r Hlt Hr. apply rule_test_false.
    do 4 (destruct j as [|j]; [injection Hr as <-; vm_compute; reflexivity |]).
    lia.
Defined.

(** C10. Called with [None] or with the empty string, the classifier does
    not fail: [tipo_text or ""] makes the label the empty string, whose
    lowercase form is empty, and the result is ["outros"]. *)
Theorem C10_classifier_falsy_label (lower : string -> string) :
  lower "" = "" ->
  or_empty None = "" /\ or_empty (Some "") = "" /\
  map_tipo_para_criterio lower None = "outros" /\
  map_tipo_para_criterio lower (Some "") = "outros".
Proof.
  intros Hlower. unfold map_tipo_para_criterio. simpl or_empty.
  rewrite Hlower. repeat split.
Qed.

Lemma C10_witness :
  lower_latin1 "" = "" /\
  map_tipo_para_criterio lower_latin1 None = "outros" /\
  map_tipo_para_criterio lower_latin1 (Some "") = "outros".
Proof.
  split; [reflexivity |].
  apply (C10_classifier_falsy_label lower_latin1). reflexivity.
Defined.

(** ** Tier classifier *)

Ltac bool_to_Z :=
  repeat match goal with
         | H : (_ && _) = true |- _ => apply andb_true_iff in H; destruct H
         | H : (_ && _) = false |- _ => apply andb_false_iff in H
         | H : (_ <=? _)%Z = true |- _ => apply Z.leb_le in H
         | H : (_ <=? _)%Z = false |- _ => apply Z.leb_gt in H
         end.

Lemma classify_points_cases (z : Z) :
  (z < 650 /\ classify_points z = "Não tem direito") \/
  (650 <= z <= 850 /\ classify_points z = "Tem direito - Gratificação Tipo I") \/
  (851 <= z <= 950 /\ classify_points z = "Tem direito - Gratificação Tipo II") \/
  (951 <= z <= 1050 /\ classify_points z = "Tem direito - Gratificação Tipo III") \/
  (1051 <= z <= 1150 /\ classify_points z = "Tem direito - Gratificação Tipo IV") \/
  (1151 <= z /\ classify_points z = "Tem direito - Gratificação Tipo V").
Proof.
  unfold classify_points.
  destruct ((650 <=? z)%Z && (z <=? 850)%Z) eqn:H1;
    [bool_to_Z; right; left; split; [lia | done] |].
  destruct ((851 <=? z)%Z && (z <=? 950)%Z) eqn:H2;
    [bool_to_Z; do 2 right; left; split; [lia | done] |].
  destruct ((951 <=? z)%Z && (z <=? 1050)%Z) eqn:H3;
    [bool_to_Z; do 3 right; left; split; [lia | done] |].
  destruct ((1051 <=? z)%Z && (z <=? 1150)%Z) eqn:H4;
    [bool_to_Z; do 4 right; left; split; [lia | done] |].
  destruct (1151 <=? z)%Z eqn:H5;
    [bool_to_Z; do 5 right; split; [lia | done] |].
  bool_to_Z. left. split; [lia | done].
Qed.

(** C2. [classify_points] is a total function on the integers; its bands
    are inclusive, disjoint and exhaustive: not eligible below 650 (all
    negative values included), Tipo I on 650-850, Tipo II on 851-950,
    Tipo III on 951-1050, Tipo IV on 1051-1150, Tipo V from 1151 on. *)
Theorem C2_classify_points_bands (pontos_final : Z) :
  (classify_points pontos_final = "Não tem direito" <-> pontos_final < 650) /\
  (classify_points pontos_final = "Tem direito - Gratificação Tipo I"
   <-> 650 <= pontos_final <= 850) /\
  (classify_points pontos_final = "Tem direito - Gratificação Tipo II"
   <-> 851 <= pontos_final <= 950) /\
  (classify_points pontos_final = "Tem direito - Gratificação Tipo III"
   <-> 951 <= pontos_final <= 1050) /\
  (classify_points pontos_final = "Tem direito - Gratificação Tipo IV"
   <-> 1051 <= pontos_final <= 1150) /\
  (classify_points pontos_final = "Tem direito - Gratificação Tipo V"
   <-> 1151 <= pontos_final) /\
  classify_points 649 = "Não tem direito" /\
  classify_points (-1) = "Não tem direito" /\
  classify_points 650 = "Tem direito - Gratificação Tipo I" /\
  classify_points 850 = "Tem direito - Gratificação Tipo I" /\
  classify_points 851 = "Tem direito - Gratificação Tipo II" /\
  classify_points 1150 = "Tem direito - Gratificação Tipo IV" /\
  classify_points 1151 = "Tem direito - Gratificação Tipo V".
Proof.
  destruct (classify_points_cases pontos_final)
    as [[Hz ->] | [[Hz ->] | [[Hz ->] | [[Hz ->] | [[Hz ->] | [Hz ->]]]]]];
    (repeat split; first [ reflexivity | lia | intros; discriminate ]).
Qed.

(** ** Point aggregator *)

Lemma weights_positivos_lookup (k : string) :
  WEIGHTS_POSITIVOS !! k =
  if decide (k = "dias_25_vagas") then Some 20
  else if decide (k = "dias_demanda_8") then Some 10
  else if decide (k = "visita_domiciliar") then Some 8
  else if decide (k = "semanas_encaminho_ate15") then Some 100
  else if decide (k = "semanas_encaminho_acima15") then Some 300
  else if decide (k = "dias_lme") then Some 15
  else if decide (k = "reunioes") then Some 20
  else if decide (k = "capacitacoes") then Some 30
  else if decide (k = "especialidades_basicas") then Some 36
  else if decide (k = "dias_lancados_sistema") then Some 10
  else None.
Proof.
  unfold WEIGHTS_POSITIVOS. simpl list_to_map.
  rewrite !lookup_insert, lookup_empty.
  repeat case_decide; subst; try done.
Qed.

(** Case analysis on a key against the ten keys of the table, one key at a
    time, closing the impossible branches as they appear. *)
Ltac split_keys :=
  repeat (case_decide; [subst |]; try congruence).

Lemma count_of_insert (m : gmap string Z) (i k : string) (x : Z) :
  count_of (<[i:=x]> m) k = if decide (i = k) then x else count_of m k.
Proof. unfold count_of. rewrite lookup_insert. by case_decide. Qed.

(** Setting the count of one criterion moves the sum by the weight of the
    criterion times the change of its count. *)
Lemma pontos_spec_insert (m : gmap string Z) (i : string) (x : Z) :
  pontos_spec (<[i:=x]> m) = pontos_spec m + weight_of i * (x - count_of m i).
Proof.
  unfold pontos_spec, weight_of.
  rewrite weights_positivos_lookup, !count_of_insert.
  split_keys; simpl; lia.
Qed.

Lemma calcula_insert_fresh (m : gmap string Z) (k : string) (v : Z) :
  m !! k = None ->
  calcula_pontos_positivos_from_summary (<[k:=v]> m)
  = calcula_pontos_positivos_from_summary m + weight_of k * v.
Proof.
  intros Hk. unfold calcula_pontos_positivos_from_summary, weight_of.
  rewrite map_fold_insert_L; [| | done].
  - destruct (WEIGHTS_POSITIVOS !! k); simpl; lia.
  - intros j1 j2 z1 z2 y _ _ _.
    destruct (WEIGHTS_POSITIVOS !! j1), (WEIGHTS_POSITIVOS !! j2); lia.
Qed.

Lemma calcula_closed_form (m : gmap string Z) :
  calcula_pontos_positivos_from_summary m = pontos_spec m.
Proof.
  induction m as [|i x m Hi IH] using map_ind; [reflexivity |].
  rewrite calcula_insert_fresh, pontos_spec_insert, IH by done.
  unfold count_of. rewrite Hi. simpl. lia.
Qed.

Lemma calcula_insert (m : gmap string Z) (k : string) (v : Z) :
  calcula_pontos_positivos_from_summary (<[k:=v]> m)
  = calcula_pontos_positivos_from_summary m + weight_of k * (v - count_of m k).
Proof. rewrite !calcula_closed_form. apply pontos_spec_insert. Qed.

(** C3. [calcula_pontos_positivos_from_summary] returns, for every mapping
    of criteria to counts, the sum over the criteria of the positive-weight
    table of count times per-unit weight, with the weights 20, 10, 8, 100,
    300, 15, 20, 30, 36 and 10; the table has these ten entries and no
    other, and a criterion absent from it ([consulta], [outros],
    [pre_natal]) contributes zero whatever its count. *)
Theorem C3_aggregate_positive (summary_counts : gmap string Z) :
  calcula_pontos_positivos_from_summary summary_counts
  = 20 * count_of summary_counts "dias_25_vagas"
    + 10 * count_of summary_counts "dias_demanda_8"
    + 8 * count_of summary_counts "visita_domiciliar"
    + 100 * count_of summary_counts "semanas_encaminho_ate15"
    + 300 * count_of summary_counts "semanas_encaminho_acima15"
    + 15 * count_of summary_counts "dias_lme"
    + 20 * count_of summary_counts "reunioes"
    + 30 * count_of summary_counts "capacitacoes"
    + 36 * count_of summary_counts "especialidades_basicas"
    + 10 * count_of summary_counts "dias_lancados_sistema" /\
  size WEIGHTS_POSITIVOS = 10%nat /\
  WEIGHTS_POSITIVOS !! "consulta" = None /\
  WEIGHTS_POSITIVOS !! "outros" = None /\
  WEIGHTS_POSITIVOS !! "pre_natal" = None /\
  (forall crit cnt,
      WEIGHTS_POSITIVOS !! crit = None ->
      calcula_pontos_positivos_from_summary (<[crit:=cnt]> summary_counts)
      = calcula_pontos_positivos_from_summary summary_counts /\
      calcula_pontos_positivos_from_summary (delete crit summary_counts)
      = calcula_pontos_positivos_from_summary summary_counts).
Proof.
  split; [apply calcula_closed_form |].
  split; [reflexivity |]. do 3 (split; [reflexivity |]).
  intros crit cnt Hcrit.
  assert (Hw : weight_of crit = 0) by (unfold weight_of; by rewrite Hcrit).
  split.
  - rewrite calcula_insert, Hw. lia.
  - destruct (summary_counts !! crit) as [old|] eqn:Hold.
    + rewrite <- (insert_delete_id summary_counts crit old Hold) at 2.
      rewrite calcula_insert, Hw. lia.
    + by rewrite delete_id.
Qed.

Lemma C3_witness :
  calcula_pontos_positivos_from_summary
    (<["consulta" := 20]> {[ "visita_domiciliar" := 2 ]}) = 16.
Proof.
  destruct (C3_aggregate_positive {[ "visita_domiciliar" := 2 ]})
    as (_ & _ & Hconsulta & _ & _ & Habsent).
  destruct (Habsent "consulta" 20 Hconsulta) as [-> _].
  reflexivity.
Defined.

(** ** Discount ledger *)

Lemma foldl_put_row_delete (l : list desconto) (m : gmap string Z) (c : string) :
  foldl put_row (delete c m) (filter (fun r => d_campo r <> c) l)
  = delete c (foldl put_row m l).
Proof.
  revert m. induction l as [|r l IH]; intros m; [done |].
  rewrite filter_cons. simpl.
  destruct (decide (d_campo r = c)) as [Hc|Hc].
  - rewrite decide_False by (intros Hn; by apply Hn).
    rewrite <- IH. unfold put_row at 3.
    by rewrite <- Hc, delete_insert_eq.
  - rewrite decide_True by done. simpl.
    rewrite <- IH. unfold put_row at 2 4.
    by rewrite delete_insert_ne.
Qed.

Lemma select_insert_or_replace_same (k p c : string) (v : Z) (db : database) :
  select_descontos k p (insert_or_replace k p c v db)
  = (filter (fun r => d_campo r <> c) (select_descontos k p db)
     ++ [Desconto (descontos_seq db + 1) k p c v])%list.
Proof.
  unfold select_descontos, insert_or_replace. simpl.
  rewrite filter_app, filter_cons, filter_nil. simpl.
  rewrite decide_True by done. f_equal.
  rewrite !list_filter_filter. apply list_filter_iff.
  intros r. unfold d_key. split.
  - intros [[-> ->] Hkey]. split; [| done]. intros Hc. apply Hkey. by rewrite Hc.
  - intros [Hc [-> ->]]. split; [done |]. intros [=]. by apply Hc.
Qed.

Lemma select_insert_or_replace_other (k p k' p' c : string) (v : Z) (db : database) :
  (k', p') <> (k, p) ->
  select_descontos k' p' (insert_or_replace k p c v db)
  = select_descontos k' p' db.
Proof.
  intros Hne. unfold select_descontos, insert_or_replace. simpl.
  rewrite filter_app, filter_cons, filter_nil. simpl.
  rewrite decide_False by (intros [-> ->]; by apply Hne).
  rewrite app_nil_r, list_filter_filter. apply list_filter_iff.
  intros r. unfold d_key. split.
  - by intros [Hsel _].
  - intros [-> ->]. split; [done |]. intros [=]. apply Hne. congruence.
Qed.

Lemma load_insert_or_replace_same (k p c : string) (v : Z) (db : database) :
  load_descontos k p (insert_or_replace k p c v db)
  = <[c:=v]> (load_descontos k p db).
Proof.
  unfold load_descontos. rewrite select_insert_or_replace_same.
  rewrite foldl_app. simpl.
  pose proof (foldl_put_row_delete (select_descontos k p db) ∅ c) as Hdel.
  rewrite delete_empty in Hdel. rewrite Hdel. apply insert_delete_eq.
Qed.

Lemma load_insert_or_replace_other (k p k' p' c : string) (v : Z) (db : database) :
  (k', p') <> (k, p) ->
  load_descontos k' p' (insert_or_replace k p c v db) = load_descontos k' p' db.
Proof.
  intros Hne. unfold load_descontos.
  by rewrite select_insert_or_replace_other.
Qed.

(** What [save_descontos] does to the lookups: on the key it writes, the
    saved mapping overrides the entries recorded before; elsewhere nothing
    changes. *)
Lemma load_save_same (k p : string) (d : gmap string Z) (db : database) :
  load_descontos k p (save_descontos k p d db) = d ∪ load_descontos k p db.
Proof.
  unfold save_descontos. case_decide as Hd.
  - by rewrite Hd, (left_id_L ∅ (∪)).
  - clear Hd.
    apply (map_fold_weak_ind
             (fun db' d' => load_descontos k p db' = d' ∪ load_descontos k p db)).
    + by rewrite (left_id_L ∅ (∪)).
    + intros c v m db' _ IH.
      by rewrite load_insert_or_replace_same, IH, insert_union_l.
Qed.

Lemma load_save_other (k p k' p' : string) (d : gmap string Z) (db : database) :
  (k', p') <> (k, p) ->
  load_descontos k' p' (save_descontos k p d db) = load_descontos k' p' db.
Proof.
  intros Hne. unfold save_descontos. case_decide; [done |].
  apply (map_fold_weak_ind
           (fun db' _ => load_descontos k' p' db' = load_descontos k' p' db));
    [done |].
  intros c v m db' _ IH. by rewrite load_insert_or_replace_other.
Qed.

Lemma unique_keys_insert_or_replace (k p c : string) (v : Z) (db : database) :
  unique_keys db -> unique_keys (insert_or_replace k p c v db).
Proof.
  unfold unique_keys, insert_or_replace. simpl. intros Hnd.
  rewrite fmap_app. apply NoDup_app. split; [| split].
  - induction (descontos db) as [|r l IH]; [constructor |].
    rewrite filter_cons. apply NoDup_cons in Hnd as [Hr Hl].
    case_decide; [| by apply IH].
    rewrite fmap_cons. apply NoDup_cons. split; [| by apply IH].
    intros Hin. apply Hr.
    apply list_elem_of_fmap in Hin as (r' & Hkey & Hr').
    apply list_elem_of_filter in Hr' as [_ Hr'].
    apply list_elem_of_fmap. by exists r'.
  - intros key Hin Hnew. apply list_elem_of_fmap in Hin as (r & -> & Hr).
    apply list_elem_of_filter in Hr as [Hr _].
    apply list_elem_of_singleton in Hnew. by apply Hr.
  - apply NoDup_singleton.
Qed.

Lemma unique_keys_save (k p : string) (d : gmap string Z) (db : database) :
  unique_keys db -> unique_keys (save_descontos k p d db).
Proof.
  intros Hdb. unfold save_descontos. case_decide; [done |].
  apply (map_fold_weak_ind (fun db' _ => unique_keys db')); [done |].
  intros c v m db' _ IH. by apply unique_keys_insert_or_replace.
Qed.

Lemma reachable_unique_keys (db : database) : reachable db -> unique_keys db.
Proof.
  induction 1 as [|db k p d _ IH].
  - apply NoDup_nil_2.
  - by apply unique_keys_save.
Qed.



(** C5. [save_descontos] replaces per (profissional_id, period, campo):
    saving [{campo: v1}] and then [{campo: v2}] makes [load_descontos]
    return [v2] for [campo] (the saved mapping overrides what was recorded,
    it is not added to it); saving the same mapping twice gives the lookups
    of saving it once; every database reached from [init_db] by saves has
    at most one row per key. *)
Theorem C5_upsert_last_write_wins (db : database) (k p : string) :
  (forall c v1 v2,
      load_descontos k p
        (save_descontos k p {[ c := v2 ]} (save_descontos k p {[ c := v1 ]} db))
      !! c = Some v2) /\
  (forall d, load_descontos k p (save_descontos k p d db)
             = d ∪ load_descontos k p db) /\
  (forall d k' p',
      load_descontos k' p' (save_descontos k p d (save_descontos k p d db))
      = load_descontos k' p' (save_descontos k p d db)) /\
  (reachable db -> unique_keys db) /\
  (forall d, unique_keys db -> unique_keys (save_descontos k p d db)).
Proof.
  split; [| split; [| split; [| split]]].
  - intros c v1 v2. rewrite !load_save_same.
    apply lookup_union_Some_l, lookup_singleton_eq.
  - intros d. apply load_save_same.
  - intros d k' p'. destruct (decide ((k', p') = (k, p))) as [[= -> ->]|Hne].
    + rewrite !load_save_same. by rewrite (assoc_L (∪)), (idemp_L (∪)).
    + by rewrite !load_save_other.
  - apply reachable_unique_keys.
  - intros d. apply unique_keys_save.
Qed.

Lemma C5_witness :
  unique_keys
    (save_descontos "3321" "2025-03" {[ "falta_dia" := 800 ]}
       (save_descontos "3321" "2025-03" {[ "falta_dia" := 400 ]} init_db)).
Proof.
  destruct (C5_upsert_last_write_wins
              (save_descontos "3321" "2025-03" {[ "falta_dia" := 400 ]} init_db)
              "3321" "2025-03") as (_ & _ & _ & Hreach & Hsave).
  apply Hsave, Hreach. apply reachable_save, reachable_init.
Defined.

(** C6. Saving an empty mapping is a no-op: the database is the one before
    the call, so every stored row, under this key and under any other, is
    unchanged, and every lookup returns what it returned before. *)
Theorem C6_upsert_empty_noop (db : database) (k p : string) :
  save_descontos k p ∅ db = db /\
  descontos (save_descontos k p ∅ db) = descontos db /\
  (forall k' p',
      load_descontos k' p' (save_descontos k p ∅ db) = load_descontos k' p' db).
Proof.
  assert (Hsave : save_descontos k p ∅ db = db).
  { unfold save_descontos. by rewrite decide_True. }
  rewrite Hsave. by repeat split.
Qed.

(** ** Summary per professional *)

Lemma groupby_keys (df : list atendimento) :
  (groupby df).*1 = merge_sort key_le (remove_dups (group_key <$> df)).
Proof.
  unfold groupby. rewrite <- list_fmap_compose.
  apply list_fmap_id.
Qed.

Lemma groupby_keys_NoDup (df : list atendimento) : NoDup (groupby df).*1.
Proof.
  rewrite groupby_keys, merge_sort_Permutation. apply NoDup_remove_dups.
Qed.

Lemma groupby_keys_elem (df : list atendimento) (k : pyval * string) :
  k ∈ (groupby df).*1 <-> k ∈ group_key <$> df.
Proof.
  rewrite groupby_keys, merge_sort_Permutation. apply elem_of_remove_dups.
Qed.

Lemma groupby_rows (df : list atendimento) (k : pyval * string)
    (g : list atendimento) :
  (k, g) ∈ groupby df -> g = filter (fun r => group_key r = k) df.
Proof.
  unfold groupby. intros Hin.
  apply list_elem_of_fmap in Hin as (k' & [= -> ->] & _). done.
Qed.

Lemma sum_values_load_or_zero (d : gmap string Z) :
  (if decide (d = ∅) then 0 else sum_values d) = sum_values d.
Proof. case_decide as Hd; [by rewrite Hd | done]. Qed.

(** The key of a group whose id is a string. *)
Lemma key_id_string (id pnome : string) :
  key_id (PStr id) pnome
  = PStr (if decide (id = "" \/ id = "None") then pnome else id).
Proof.
  unfold key_id, in_absent.
  destruct (decide (id = "")) as [->|H1]; [done |].
  destruct (decide (id = "None")) as [->|H2]; [done |].
  rewrite !bool_decide_eq_false_2 by done. simpl.
  by rewrite decide_False by (intros [?|?]; done).
Qed.

Lemma crit_counts_of_snoc (lower : string -> string) (g : list atendimento)
    (r : atendimento) :
  crit_counts_of lower (g ++ [r]) = count_row lower (crit_counts_of lower g) r.
Proof. unfold crit_counts_of. by rewrite foldl_app. Qed.

(** A row without id reaches the loop with the key NaN, which the guard
    [(None, "", "None")] does not list: the key of the summary stays NaN and
    the discount recorded under the name is not read. *)
Lemma missing_id_key_is_nan :
  resumo_por_profissional lower_latin1 name_db "2025-03" no_id_df
  = [ Resumo PNaN (PStr "ANA") {[ "visita_domiciliar" := 2 ]} 16 0 16
             "Não tem direito" ] /\
  load_descontos "ANA" "2025-03" name_db = {[ "falta_dia" := 400 ]}.
Proof. split; vm_compute; reflexivity. Qed.

(** C4 (as the code has it). For every frame of one period and every ledger
    state, [resumo_por_profissional] emits exactly one summary per distinct
    (profissional_id, profissional) pair, built from the rows of that pair;
    [pontos_finais] is [pontos_positivos - pontos_negativos], not clamped
    (it can be negative); the class is [classify_points] of
    [pontos_finais]; an empty frame gives an empty result.  For a group
    whose id is a string, the key is the id unless the id is empty or the
    string "None", in which case it is the name, and [pontos_negativos] is
    the sum of the values [load_descontos] returns for (key, period).
    (The key of a group without id is not part of the statement.) *)
Theorem C4_summary_builder
    (lower : string -> string) (db : database) (selected_period : string)
    (df : list atendimento) :
  resumo_por_profissional lower db selected_period [] = [] /\
  NoDup (groupby df).*1 /\
  (forall k, k ∈ (groupby df).*1 <-> k ∈ group_key <$> df) /\
  (forall k g, (k, g) ∈ groupby df ->
               g = filter (fun r => group_key r = k) df) /\
  Forall2
    (fun '(pid, pnome, g) s =>
       r_crit_counts s = crit_counts_of lower g /\
       r_pontos_positivos s
       = calcula_pontos_positivos_from_summary (r_crit_counts s) /\
       r_pontos_finais s = r_pontos_positivos s - r_pontos_negativos s /\
       r_classificacao s = classify_points (r_pontos_finais s) /\
       forall id,
         pid = PStr id ->
         let key := if decide (id = "" \/ id = "None") then pnome else id in
         r_profissional_id s = PStr key /\
         r_pontos_negativos s
         = sum_values (load_descontos key selected_period db))
    (groupby df)
    (resumo_por_profissional lower db selected_period df) /\
  r_pontos_finais
    <$> resumo_por_profissional lower_latin1 sample_db "2025-03" sample_df
  = [-38].
Proof.
  split; [reflexivity |].
  split; [apply groupby_keys_NoDup |].
  split; [apply groupby_keys_elem |].
  split; [apply groupby_rows |].
  split; [| vm_compute; reflexivity].
  unfold resumo_por_profissional. apply Forall2_fmap_r, Forall_Forall2_diag.
  apply Forall_forall. intros [[pid pnome] g] _. unfold resumo_row. simpl.
  do 4 (split; [reflexivity |]).
  intros id ->. rewrite key_id_string. simpl.
  by rewrite sum_values_load_or_zero.
Qed.

(** C4, counterexample to the key rule as stated: the id "None" is present
    and non-empty, and the summary is keyed by the name. *)
Lemma C4_counterexample :
  professional_key_spec (Some "None") "ANA" = "None" /\
  r_profissional_id
    <$> resumo_por_profissional lower_latin1 init_db "2025-03" none_id_df
  = [PStr "ANA"] /\
  key_id (PStr "None") "ANA"
  <> PStr (professional_key_spec (Some "None") "ANA").
Proof. repeat split; vm_compute; (reflexivity || discriminate). Qed.



(** C8 (as the code has it). The engine has no validation step and no
    failure path: missing data counts as zero (a row without quantity
    leaves the count of its criterion as it was), and a row with a negative
    quantity is accepted like any other: its quantity is added to the count
    of its criterion, which goes down, and the positive points move by the
    weight of the criterion times that quantity. *)
Theorem C8_quantity_folded_as_is
    (lower : string -> string) (g : list atendimento)
    (pid : option string) (pnome : string) (tipo : option string) (q : Z) :
  let crit := map_tipo_para_criterio lower tipo in
  let before := crit_counts_of lower g in
  let after := crit_counts_of lower (g ++ [Atendimento pid pnome tipo (Some q)]) in
  let after_null := crit_counts_of lower (g ++ [Atendimento pid pnome tipo None]) in
  after = <[crit := count_of before crit + q]> before /\
  calcula_pontos_positivos_from_summary after
  = calcula_pontos_positivos_from_summary before + weight_of crit * q /\
  (q < 0 -> count_of after crit < count_of before crit) /\
  after_null = <[crit := count_of before crit]> before /\
  calcula_pontos_positivos_from_summary after_null
  = calcula_pontos_positivos_from_summary before.
Proof.
  intros crit before after after_null.
  assert (Hafter : after = <[crit := count_of before crit + q]> before).
  { unfold after. by rewrite crit_counts_of_snoc. }
  assert (Hnull : after_null = <[crit := count_of before crit]> before).
  { unfold after_null. by rewrite crit_counts_of_snoc. }
  split; [exact Hafter |]. split; [| split; [| split; [exact Hnull |]]].
  - rewrite Hafter, calcula_insert. f_equal. f_equal. lia.
  - intros Hq. rewrite Hafter, count_of_insert, decide_True by done. lia.
  - rewrite Hnull, calcula_insert. lia.
Qed.

Lemma C8_witness :
  crit_counts_of lower_latin1
    (sample_df ++ [Atendimento (Some "3321") "ANA" (Some "Visita") (Some (-5))])
  !! "visita_domiciliar" = Some (-3).
Proof.
  destruct (C8_quantity_folded_as_is
              lower_latin1 sample_df (Some "3321") "ANA" (Some "Visita") (-5))
    as [-> _].
  vm_compute. reflexivity.
Defined.

(** C8, counterexample to the claim as stated: a frame whose only row has
    quantity -5 is not rejected; the summary is returned with -5 as the
    count of the criterion and -40 as the positive points. *)
Lemma C8_counterexample :
  resumo_por_profissional lower_latin1 init_db "2025-03" negative_df
  = [ Resumo (PStr "3321") (PStr "ANA") {[ "visita_domiciliar" := -5 ]}
             (-40) 0 (-40) "Não tem direito" ].
Proof. vm_compute. reflexivity. Qed.

(** ** Detail page *)

Lemma weights_negativos_nonneg (campo : string) (peso : Z) :
  WEIGHTS_NEGATIVOS !! campo = Some peso -> 0 <= peso.
Proof.
  unfold WEIGHTS_NEGATIVOS. simpl list_to_map.
  rewrite !lookup_insert, lookup_empty.
  repeat (case_decide; [intros [= <-]; lia |]). done.
Qed.

(** C9. The occurrence count shown for a stored discount value is the
    value floor-divided by the weight of the criterion when the weight is
    positive, and the value itself when the weight is 0 (as for
    [falta_aso]); every weight of the table is one or the other.  So the
    count times the weight gives the stored value back exactly when the
    value is a multiple of the weight, and is another number otherwise. *)
Theorem C9_initial_count
    (descontos_salvos : gmap string Z) (campo : string) (peso : Z) :
  let stored := saved_val descontos_salvos campo in
  let count := initial_count descontos_salvos campo peso in
  (0 < peso -> count = stored `div` peso) /\
  (peso = 0 -> count = stored) /\
  (0 < peso -> stored `mod` peso <> 0 -> computed_val count peso <> stored) /\
  (0 < peso -> stored `mod` peso = 0 -> computed_val count peso = stored) /\
  WEIGHTS_NEGATIVOS !! "falta_aso" = Some 0 /\
  (forall c w, WEIGHTS_NEGATIVOS !! c = Some w -> 0 <= w).
Proof.
  intros stored count. unfold count, initial_count, computed_val. fold stored.
  split; [| split; [| split; [| split; [| split]]]].
  - intros Hp. rewrite bool_decide_eq_true_2 by lia.
    by rewrite (proj2 (Z.ltb_lt 0 peso) Hp).
  - intros ->. by rewrite bool_decide_eq_false_2 by lia.
  - intros Hp Hmod. rewrite bool_decide_eq_true_2 by lia.
    rewrite (proj2 (Z.ltb_lt 0 peso) Hp). simpl.
    pose proof (Z.div_mod stored peso). lia.
  - intros Hp Hmod. rewrite bool_decide_eq_true_2 by lia.
    rewrite (proj2 (Z.ltb_lt 0 peso) Hp). simpl.
    pose proof (Z.div_mod stored peso). lia.
  - reflexivity.
  - apply weights_negativos_nonneg.
Qed.

Lemma C9_witness :
  initial_count {[ "falta_dia" := 500 ]} "falta_dia" 400 = 1 /\
  computed_val (initial_count {[ "falta_dia" := 500 ]} "falta_dia" 400) 400
  <> 500.
Proof.
  destruct (C9_initial_count {[ "falta_dia" := 500 ]} "falta_dia" 400)
    as (Hdiv & _ & Hlossy & _).
  split.
  - rewrite Hdiv by lia. reflexivity.
  - apply Hlossy; [lia | vm_compute; discriminate].
Defined.

(** * Further properties of the code *)

(** ** Ledger: frame, rows and keys *)

Lemma NoDup_fmap_filter {A B : Type} (f : A -> B) (P : A -> Prop)
    `{!forall x, Decision (P x)} (l : list A) :
  NoDup (f <$> l) -> NoDup (f <$> filter P l).
Proof.
  intros Hnd. eapply sublist_NoDup; [exact Hnd |].
  apply fmap_sublist, sublist_filter.
Qed.

Lemma rows_insert_or_replace (k p c : string) (v : Z) (db : database) (r : desconto) :
  r ∈ descontos (insert_or_replace k p c v db) <->
  (r ∈ descontos db /\ d_key r <> (k, p, c)) \/
  r = Desconto (descontos_seq db + 1) k p c v.
Proof.
  unfold insert_or_replace. simpl.
  rewrite elem_of_app, list_elem_of_filter, list_elem_of_singleton. tauto.
Qed.

Lemma ids_ok_insert_or_replace (k p c : string) (v : Z) (db : database) :
  ids_ok db -> ids_ok (insert_or_replace k p c v db).
Proof.
  intros (Hseq & Hnd & Hall). rewrite Forall_forall in Hall.
  split; [simpl; lia |]. split.
  - unfold insert_or_replace. simpl. rewrite fmap_app. apply NoDup_app.
    split; [| split].
    + by apply NoDup_fmap_filter.
    + intros i Hi Hnew. apply list_elem_of_singleton in Hnew. subst i.
      apply list_elem_of_fmap in Hi as (r & Hid & Hr).
      apply list_elem_of_filter in Hr as [_ Hr].
      specialize (Hall r Hr). simpl in Hid. lia.
    + apply NoDup_singleton.
  - apply Forall_forall. intros r Hr.
    apply rows_insert_or_replace in Hr as [[Hr _] | ->]; simpl.
    + specialize (Hall r Hr). lia.
    + lia.
Qed.

Lemma ids_ok_save (k p : string) (d : gmap string Z) (db : database) :
  ids_ok db -> ids_ok (save_descontos k p d db).
Proof.
  intros Hdb. unfold save_descontos. case_decide; [done |].
  apply (map_fold_weak_ind (fun db' _ => ids_ok db')); [done |].
  intros c v m db' _ IH. by apply ids_ok_insert_or_replace.
Qed.

(** X1. Saving discounts for one professional and period changes no lookup
    for another professional or another period. *)
Theorem X1_save_frame (k p k' p' : string) (d : gmap string Z) (db : database) :
  (k', p') <> (k, p) ->
  load_descontos k' p' (save_descontos k p d db) = load_descontos k' p' db.
Proof. apply load_save_other. Qed.

Lemma X1_witness :
  load_descontos "3321" "2025-03"
    (save_descontos "3321" "2025-04" {[ "falta_dia" := 800 ]} sample_db)
  = {[ "falta_dia" := 400 ]}.
Proof.
  rewrite (X1_save_frame "3321" "2025-04" "3321" "2025-03") by discriminate.
  vm_compute. reflexivity.
Defined.

(** X2. In every ledger state reached from [init_db] by saves, the row ids
    are distinct, positive and at most the AUTOINCREMENT counter: an INSERT
    OR REPLACE never meets a row with the id it is about to use. *)
Theorem X2_primary_key_invariant (db : database) :
  reachable db ->
  ids_ok db /\
  forall k p c v r, r ∈ descontos db ->
                    d_id r <> descontos_seq (insert_or_replace k p c v db) .
Proof.
  intros Hreach.
  assert (Hok : ids_ok db).
  { induction Hreach as [|db k p d _ IH].
    - split; [done |]. split; [apply NoDup_nil_2 | apply Forall_nil_2].
    - by apply ids_ok_save. }
  split; [exact Hok |].
  intros k p c v r Hr. destruct Hok as (_ & _ & Hall).
  rewrite Forall_forall in Hall. specialize (Hall r Hr). simpl. lia.
Qed.

Lemma X2_witness :
  ids_ok (save_descontos "3321" "2025-03" {[ "falta_dia" := 800 ]} sample_db).
Proof.
  apply (X2_primary_key_invariant
           (save_descontos "3321" "2025-03" {[ "falta_dia" := 800 ]} sample_db)).
  apply reachable_save, reachable_save, reachable_init.
Defined.

Lemma foldl_put_row_lookup_inv (l : list desconto) (m : gmap string Z)
    (c : string) (v : Z) :
  foldl put_row m l !! c = Some v ->
  m !! c = Some v \/ exists r, r ∈ l /\ d_campo r = c /\ d_valor r = v.
Proof.
  revert m. induction l as [|r l IH]; intros m Hv; [by left |].
  simpl in Hv. apply IH in Hv as [Hm | (r' & Hr' & Hc & Hval)].
  - unfold put_row in Hm. rewrite lookup_insert in Hm. case_decide as Hc.
    + right. exists r. split; [left |]. split; congruence.
    + by left.
  - right. exists r'. split; [by right | done].
Qed.

Lemma foldl_put_row_lookup_other (l : list desconto) (m : gmap string Z) (c : string) :
  c ∉ d_campo <$> l -> foldl put_row m l !! c = m !! c.
Proof.
  revert m. induction l as [|r l IH]; intros m Hc; [done |].
  rewrite fmap_cons, not_elem_of_cons in Hc. destruct Hc as [Hne Hc].
  simpl. rewrite IH by done. unfold put_row. by rewrite lookup_insert_ne.
Qed.

Lemma foldl_put_row_lookup (l : list desconto) (m : gmap string Z) (r : desconto) :
  NoDup (d_campo <$> l) -> r ∈ l ->
  foldl put_row m l !! d_campo r = Some (d_valor r).
Proof.
  revert m. induction l as [|r0 l IH]; intros m Hnd Hr.
  - by apply elem_of_nil in Hr.
  - rewrite fmap_cons in Hnd. apply NoDup_cons in Hnd as [Hr0 Hnd].
    apply elem_of_cons in Hr as [-> | Hr]; simpl.
    + rewrite foldl_put_row_lookup_other by done. apply lookup_insert_eq.
    + by apply IH.
Qed.

Lemma select_campos_NoDup (k p : string) (db : database) :
  unique_keys db -> NoDup (d_campo <$> select_descontos k p db).
Proof.
  unfold unique_keys, select_descontos. intros Hnd.
  apply (NoDup_fmap_1 (fun c => (k, p, c))).
  rewrite <- list_fmap_compose.
  erewrite list_fmap_ext;
    [apply (NoDup_fmap_filter d_key), Hnd |].
  intros i r Hr. apply list_elem_of_lookup_2, list_elem_of_filter in Hr
    as [[<- <-] _]. done.
Qed.

(** X3. In a ledger state reached by saves, [load_descontos] returns for a
    criterion exactly the value of the stored row of that professional,
    period and criterion: a value is returned if and only if such a row
    exists. *)
Theorem X3_lookup_is_the_row (db : database) (k p c : string) (v : Z) :
  reachable db ->
  (load_descontos k p db !! c = Some v <->
   exists r, r ∈ descontos db /\ d_key r = (k, p, c) /\ d_valor r = v).
Proof.
  intros Hreach. apply reachable_unique_keys in Hreach.
  unfold load_descontos. split.
  - intros Hv. apply foldl_put_row_lookup_inv in Hv
      as [Hm | (r & Hr & Hc & Hval)]; [by rewrite lookup_empty in Hm |].
    apply list_elem_of_filter in Hr as [[Hk Hp] Hr].
    exists r. unfold d_key. by rewrite Hk, Hp, Hc.
  - intros (r & Hr & [= Hk Hp Hc] & Hval). rewrite <- Hc, <- Hval.
    apply foldl_put_row_lookup; [by apply select_campos_NoDup |].
    apply list_elem_of_filter. by split.
Qed.

Lemma X3_witness :
  exists r, r ∈ descontos sample_db /\
            d_key r = ("3321", "2025-03", "falta_dia") /\ d_valor r = 400.
Proof.
  apply (X3_lookup_is_the_row sample_db "3321" "2025-03" "falta_dia" 400).
  - apply reachable_save, reachable_init.
  - vm_compute. reflexivity.
Defined.

(** X4. A save never removes a recorded criterion: under the key it writes,
    the recorded criteria afterwards are those of the saved mapping and
    those recorded before; whatever key it writes, a criterion recorded
    for some professional and period is still recorded afterwards. *)
Theorem X4_save_keeps_criteria (db : database) (k p : string) (d : gmap string Z) :
  dom (load_descontos k p (save_descontos k p d db))
  = dom d ∪ dom (load_descontos k p db) /\
  forall k' p', dom (load_descontos k' p' db)
                ⊆ dom (load_descontos k' p' (save_descontos k p d db)).
Proof.
  split.
  - by rewrite load_save_same, dom_union_L.
  - intros k' p'. destruct (decide ((k', p') = (k, p))) as [[= -> ->]|Hne].
    + rewrite load_save_same, dom_union_L. set_solver.
    + by rewrite load_save_other.
Qed.

(** X5. Saves for two different (professional, period) pairs commute: every
    lookup is the same whichever save came first. *)
Theorem X5_saves_commute
    (db : database) (k1 p1 k2 p2 : string) (d1 d2 : gmap string Z) (k p : string) :
  (k1, p1) <> (k2, p2) ->
  load_descontos k p (save_descontos k1 p1 d1 (save_descontos k2 p2 d2 db))
  = load_descontos k p (save_descontos k2 p2 d2 (save_descontos k1 p1 d1 db)).
Proof.
  intros Hne.
  destruct (decide ((k, p) = (k1, p1))) as [[= -> ->]|H1].
  - rewrite load_save_same, !(load_save_other k2 p2 k1 p1) by done.
    by rewrite load_save_same.
  - rewrite (load_save_other k1 p1 k p) by done.
    destruct (decide ((k, p) = (k2, p2))) as [[= -> ->]|H2].
    + by rewrite !load_save_same, load_save_other by done.
    + by rewrite !load_save_other by done.
Qed.

Lemma X5_witness :
  load_descontos "3321" "2025-03"
    (save_descontos "3321" "2025-03" {[ "falta_dia" := 400 ]}
       (save_descontos "77" "2025-03" {[ "falta_meio" := 300 ]} init_db))
  = load_descontos "3321" "2025-03"
      (save_descontos "77" "2025-03" {[ "falta_meio" := 300 ]}
         (save_descontos "3321" "2025-03" {[ "falta_dia" := 400 ]} init_db)).
Proof.
  apply (X5_saves_commute init_db "3321" "2025-03" "77" "2025-03").
  discriminate.
Defined.

(** ** Counting and points of a group *)

Lemma foldr_add_acc (l : list Z) (a : Z) :
  foldr Z.add a l = foldr Z.add 0 l + a.
Proof. induction l as [|x l IH]; simpl; lia. Qed.

Lemma quantity_sum_snoc (crit_of : option string -> string) (crit : string)
    (g : list atendimento) (r : atendimento) :
  quantity_sum crit_of crit (g ++ [r])
  = quantity_sum crit_of crit g
    + (if decide (crit_of (a_tipo r) = crit) then default 0 (a_quantidade r) else 0).
Proof.
  unfold quantity_sum. rewrite filter_app, fmap_app, foldr_app.
  rewrite foldr_add_acc. f_equal.
  rewrite filter_cons, filter_nil. case_decide; simpl; lia.
Qed.

Lemma count_row_count_of (lower : string -> string) (m : gmap string Z)
    (r : atendimento) (c : string) :
  count_of (count_row lower m r) c
  = count_of m c
    + (if decide (map_tipo_para_criterio lower (a_tipo r) = c)
       then default 0 (a_quantidade r) else 0).
Proof.
  unfold count_row. fold (count_of m (map_tipo_para_criterio lower (a_tipo r))).
  destruct (a_quantidade r) as [q|]; rewrite count_of_insert;
    case_decide; subst; simpl; lia.
Qed.

Lemma count_row_lookup_None (lower : string -> string) (m : gmap string Z)
    (r : atendimento) (c : string) :
  count_row lower m r !! c = None <->
  m !! c = None /\ map_tipo_para_criterio lower (a_tipo r) <> c.
Proof.
  unfold count_row.
  destruct (a_quantidade r) as [q|]; rewrite lookup_insert;
    (case_decide as Hc;
     [ split; [discriminate | intros [_ Hne]; by apply Hne in Hc]
     | split; [intros Hm; by split | by intros [Hm _]] ]).
Qed.

(** X6. The count a summary holds for a criterion is the sum of the
    quantities of the rows of the group that the classifier maps to that
    criterion (a row without quantity counting 0), and a criterion is a
    key of the counts exactly when some row of the group maps to it. *)
Theorem X6_counts_are_sums
    (lower : string -> string) (g : list atendimento) (crit : string) :
  count_of (crit_counts_of lower g) crit
  = quantity_sum (map_tipo_para_criterio lower) crit g /\
  (crit_counts_of lower g !! crit = None <->
   forall r, r ∈ g -> map_tipo_para_criterio lower (a_tipo r) <> crit).
Proof.
  induction g as [|r g [IHsum IHkey]] using rev_ind.
  - split; [reflexivity |]. split; [intros _ r Hr; by apply elem_of_nil in Hr | done].
  - rewrite crit_counts_of_snoc. split.
    + by rewrite count_row_count_of, quantity_sum_snoc, IHsum.
    + rewrite count_row_lookup_None, IHkey. split.
      * intros [Hg Hr] r' Hr'. apply elem_of_app in Hr' as [Hr' | Hr'].
        -- by apply Hg.
        -- apply list_elem_of_singleton in Hr'. by subst r'.
      * intros Hall. split.
        -- intros r' Hr'. apply Hall, elem_of_app. by left.
        -- apply Hall, elem_of_app. right. by apply list_elem_of_singleton.
Qed.

Lemma calcula_count_row (lower : string -> string) (m : gmap string Z)
    (r : atendimento) :
  calcula_pontos_positivos_from_summary (count_row lower m r)
  = calcula_pontos_positivos_from_summary m
    + row_points (map_tipo_para_criterio lower) r.
Proof.
  unfold count_row, row_points.
  fold (count_of m (map_tipo_para_criterio lower (a_tipo r))).
  destruct (a_quantidade r) as [q|]; rewrite calcula_insert; simpl; lia.
Qed.

Lemma calcula_crit_counts (lower : string -> string) (g : list atendimento) :
  calcula_pontos_positivos_from_summary (crit_counts_of lower g)
  = foldr Z.add 0 (row_points (map_tipo_para_criterio lower) <$> g).
Proof.
  induction g as [|r g IH] using rev_ind; [reflexivity |].
  rewrite crit_counts_of_snoc, calcula_count_row, IH.
  rewrite fmap_app, foldr_app, (foldr_add_acc _ (foldr _ _ _)). simpl. lia.
Qed.

Lemma foldr_add_Permutation (l1 l2 : list Z) :
  l1 ≡ₚ l2 -> foldr Z.add 0 l1 = foldr Z.add 0 l2.
Proof. induction 1; simpl; lia. Qed.

(** X7. The positive points of a group are the sum, over its rows, of the
    weight of the row's criterion times its quantity.  So they add up over
    the concatenation of two lists of rows and do not depend on the order
    of the rows. *)
Theorem X7_points_are_row_sums
    (lower : string -> string) (g g1 g2 : list atendimento) :
  calcula_pontos_positivos_from_summary (crit_counts_of lower g)
  = foldr Z.add 0 (row_points (map_tipo_para_criterio lower) <$> g) /\
  calcula_pontos_positivos_from_summary (crit_counts_of lower (g1 ++ g2))
  = calcula_pontos_positivos_from_summary (crit_counts_of lower g1)
    + calcula_pontos_positivos_from_summary (crit_counts_of lower g2) /\
  (g1 ≡ₚ g2 ->
   calcula_pontos_positivos_from_summary (crit_counts_of lower g1)
   = calcula_pontos_positivos_from_summary (crit_counts_of lower g2)).
Proof.
  split; [apply calcula_crit_counts |]. split.
  - rewrite !calcula_crit_counts, fmap_app, foldr_app.
    rewrite (foldr_add_acc _ (foldr _ _ _)). lia.
  - intros Hperm. rewrite !calcula_crit_counts.
    apply foldr_add_Permutation. by rewrite Hperm.
Qed.

Lemma X7_witness :
  calcula_pontos_positivos_from_summary
    (crit_counts_of lower_latin1 (reverse sample_df)) = 362.
Proof.
  destruct (X7_points_are_row_sums lower_latin1 [] (reverse sample_df) sample_df)
    as (_ & _ & ->).
  - vm_compute. reflexivity.
  - apply reverse_Permutation.
Defined.

Lemma count_of_union_with (m1 m2 : gmap string Z) (k : string) :
  count_of (union_with (fun a b => Some (a + b)) m1 m2) k
  = count_of m1 k + count_of m2 k.
Proof.
  unfold count_of. rewrite lookup_union_with.
  destruct (m1 !! k), (m2 !! k); simpl; lia.
Qed.

(** X8. [calcula_pontos_positivos_from_summary] is additive: the points of
    the criterion-wise sum of two count mappings are the sum of their
    points; in particular the points of [{A: m + n}] are those of [{A: m}]
    plus those of [{A: n}]. *)
Theorem X8_points_additive (m1 m2 : gmap string Z) :
  calcula_pontos_positivos_from_summary
    (union_with (fun a b => Some (a + b)) m1 m2)
  = calcula_pontos_positivos_from_summary m1
    + calcula_pontos_positivos_from_summary m2 /\
  forall crit m n,
    calcula_pontos_positivos_from_summary {[ crit := m + n ]}
    = calcula_pontos_positivos_from_summary {[ crit := m ]}
      + calcula_pontos_positivos_from_summary {[ crit := n ]}.
Proof.
  assert (Hadd : forall a b : gmap string Z,
             calcula_pontos_positivos_from_summary
               (union_with (fun x y => Some (x + y)) a b)
             = calcula_pontos_positivos_from_summary a
               + calcula_pontos_positivos_from_summary b).
  { intros a b. rewrite !calcula_closed_form. unfold pontos_spec.
    rewrite !count_of_union_with. lia. }
  split; [apply Hadd |].
  intros crit m n. rewrite <- Hadd. f_equal.
  apply map_eq. intros i. rewrite lookup_union_with, !lookup_singleton.
  by case_decide.
Qed.

(** ** What the classifier can return *)

Lemma map_tipo_in_criteria (lower : string -> string) (tipo_text : option string) :
  map_tipo_para_criterio lower tipo_text ∈ criteria.
Proof.
  unfold map_tipo_para_criterio, criteria.
  repeat match goal with
         | |- context [if ?b then _ else _] => destruct b
         end;
    repeat (first [apply list_elem_of_here | apply list_elem_of_further]).
Qed.

Lemma crit_counts_keys (lower : string -> string) (g : list atendimento) (c : string) :
  c ∉ criteria -> crit_counts_of lower g !! c = None.
Proof.
  intros Hc. induction g as [|r g IH] using rev_ind; [done |].
  rewrite crit_counts_of_snoc. apply count_row_lookup_None.
  split; [done |]. intros <-. apply Hc, map_tipo_in_criteria.
Qed.

Ltac not_a_criterion :=
  let H := fresh in
  unfold criteria; intros H;
  repeat (apply elem_of_cons in H as [H | H]; [discriminate H |]);
  by apply elem_of_nil in H.

(** X9. The classifier returns one of ten criteria, never [dias_25_vagas],
    [semanas_encaminho_ate15] or [semanas_encaminho_acima15].  So the
    counts of a summary have none of these three keys, and its positive
    points are made of the seven other weights only. *)
Theorem X9_unreachable_weights
    (lower : string -> string) (tipo_text : option string)
    (g : list atendimento) :
  map_tipo_para_criterio lower tipo_text ∈ criteria /\
  crit_counts_of lower g !! "dias_25_vagas" = None /\
  crit_counts_of lower g !! "semanas_encaminho_ate15" = None /\
  crit_counts_of lower g !! "semanas_encaminho_acima15" = None /\
  calcula_pontos_positivos_from_summary (crit_counts_of lower g)
  = 10 * count_of (crit_counts_of lower g) "dias_demanda_8"
    + 8 * count_of (crit_counts_of lower g) "visita_domiciliar"
    + 15 * count_of (crit_counts_of lower g) "dias_lme"
    + 20 * count_of (crit_counts_of lower g) "reunioes"
    + 30 * count_of (crit_counts_of lower g) "capacitacoes"
    + 36 * count_of (crit_counts_of lower g) "especialidades_basicas"
    + 10 * count_of (crit_counts_of lower g) "dias_lancados_sistema".
Proof.
  assert (H1 : crit_counts_of lower g !! "dias_25_vagas" = None).
  { apply crit_counts_keys. not_a_criterion. }
  assert (H2 : crit_counts_of lower g !! "semanas_encaminho_ate15" = None).
  { apply crit_counts_keys. not_a_criterion. }
  assert (H3 : crit_counts_of lower g !! "semanas_encaminho_acima15" = None).
  { apply crit_counts_keys. not_a_criterion. }
  split; [apply map_tipo_in_criteria |]. do 3 (split; [done |]).
  rewrite calcula_closed_form. unfold pontos_spec, count_of.
  rewrite H1, H2, H3. simpl. lia.
Qed.

(** ** Tiers are ordered *)

Lemma classify_points_monotone (p q : Z) :
  p <= q ->
  (tier_rank (classify_points p) <= tier_rank (classify_points q))%nat.
Proof.
  intros Hpq.
  destruct (classify_points_cases p)
    as [[Hp ->] | [[Hp ->] | [[Hp ->] | [[Hp ->] | [[Hp ->] | [Hp ->]]]]]];
    destruct (classify_points_cases q)
      as [[Hq ->] | [[Hq ->] | [[Hq ->] | [[Hq ->] | [[Hq ->] | [Hq ->]]]]]];
    first [lia | vm_compute; lia].
Qed.

(** X10. [classify_points] is monotone: more points never give a lower
    tier.  The rank of the label is 0 exactly below 650 points and 5
    exactly from 1151 points on. *)
Theorem X10_tiers_monotone (p q : Z) :
  (p <= q ->
   (tier_rank (classify_points p) <= tier_rank (classify_points q))%nat) /\
  (tier_rank (classify_points p) = 0%nat <-> p < 650) /\
  (tier_rank (classify_points p) = 5%nat <-> 1151 <= p).
Proof.
  split; [apply classify_points_monotone |].
  destruct (classify_points_cases p)
    as [[Hp ->] | [[Hp ->] | [[Hp ->] | [[Hp ->] | [[Hp ->] | [Hp ->]]]]]];
    split; vm_compute tier_rank; split; intros; first [lia | done].
Qed.

Lemma X10_witness :
  (tier_rank (classify_points 800) <= tier_rank (classify_points 1200))%nat.
Proof.
  destruct (X10_tiers_monotone 800 1200) as [Hmono _]. apply Hmono. lia.
Defined.

(** ** Detail page: edits, saving and the ledger invariant *)

Lemma weights_negativos_lookup (k : string) :
  WEIGHTS_NEGATIVOS !! k =
  if decide (k = "falta_meio") then Some 300
  else if decide (k = "falta_dia") then Some 400
  else if decide (k = "falta_aso") then Some 0
  else if decide (k = "falta_injust") then Some 1650
  else if decide (k = "nao_especialidade") then Some 12
  else if decide (k = "nao_uso_sistema") then Some 210
  else if decide (k = "nao_25_vagas") then Some 1000
  else if decide (k = "recusa_atendimento") then Some 1000
  else None.
Proof.
  unfold WEIGHTS_NEGATIVOS. simpl list_to_map.
  rewrite !lookup_insert, lookup_empty.
  repeat case_decide; subst; try done.
Qed.

Lemma edits_lookup (count : string -> Z) (campo : string) :
  edits count !! campo
  = (fun peso => computed_val (count campo) peso) <$> WEIGHTS_NEGATIVOS !! campo.
Proof.
  unfold edits. rewrite map_lookup_imap.
  by destruct (WEIGHTS_NEGATIVOS !! campo).
Qed.

Lemma sum_values_insert (m : gmap string Z) (k : string) (v : Z) :
  m !! k = None -> sum_values (<[k:=v]> m) = sum_values m + v.
Proof.
  intros Hk. unfold sum_values. rewrite map_fold_insert_L; [done | | done].
  intros. lia.
Qed.

Lemma sum_values_nonneg (m : gmap string Z) :
  map_Forall (fun _ v => 0 <= v) m -> 0 <= sum_values m.
Proof.
  induction m as [|k v m Hk IH] using map_ind; [done |].
  intros Hall. apply map_Forall_insert in Hall as [Hv Hm]; [| done].
  rewrite sum_values_insert by done. specialize (IH Hm). lia.
Qed.

Lemma edits_as_inserts (count : string -> Z) :
  edits count
  = <["falta_meio" := count "falta_meio" * 300]>
      (<["falta_dia" := count "falta_dia" * 400]>
         (<["falta_aso" := count "falta_aso" * 0]>
            (<["falta_injust" := count "falta_injust" * 1650]>
               (<["nao_especialidade" := count "nao_especialidade" * 12]>
                  (<["nao_uso_sistema" := count "nao_uso_sistema" * 210]>
                     (<["nao_25_vagas" := count "nao_25_vagas" * 1000]>
                        {[ "recusa_atendimento"
                           := count "recusa_atendimento" * 1000 ]})))))).
Proof.
  apply map_eq. intros k.
  rewrite edits_lookup, weights_negativos_lookup. unfold computed_val.
  repeat (case_decide;
          [ subst; first [by rewrite lookup_insert_eq | by rewrite lookup_singleton_eq]
          | first [ rewrite lookup_insert_ne by congruence
                  | rewrite lookup_singleton_ne by congruence ] ]).
  done.
Qed.

Ltac fresh_key :=
  repeat (rewrite lookup_insert_ne by discriminate);
  first [by apply lookup_singleton_ne | by apply lookup_empty].

(** X11. The edits of the detail page always hold the eight criteria of
    the negative-weight table, so the mapping saved is never empty; the
    entry of [falta_aso], whose weight is 0, is 0 whatever number of
    occurrences is entered; the negative points shown, the sum of the
    edits, are the weighted sum of the numbers entered. *)
Theorem X11_edits (count : string -> Z) :
  dom (edits count) = dom WEIGHTS_NEGATIVOS /\
  size (edits count) = 8%nat /\
  edits count <> ∅ /\
  edits count !! "falta_aso" = Some 0 /\
  sum_values (edits count)
  = 300 * count "falta_meio" + 400 * count "falta_dia"
    + 1650 * count "falta_injust" + 12 * count "nao_especialidade"
    + 210 * count "nao_uso_sistema" + 1000 * count "nao_25_vagas"
    + 1000 * count "recusa_atendimento".
Proof.
  assert (Hdom : dom (edits count) = dom WEIGHTS_NEGATIVOS).
  { apply set_eq. intros k. rewrite !elem_of_dom, edits_lookup.
    by rewrite fmap_is_Some. }
  split; [exact Hdom |].
  split; [by rewrite <- size_dom, Hdom, size_dom |].
  split.
  { intros Hempty. pose proof (edits_lookup count "falta_aso") as Hl.
    rewrite Hempty, lookup_empty in Hl. discriminate Hl. }
  split.
  { rewrite edits_lookup. unfold computed_val.
    replace (WEIGHTS_NEGATIVOS !! "falta_aso") with (Some 0) by reflexivity.
    simpl. f_equal. lia. }
  rewrite edits_as_inserts.
  rewrite !sum_values_insert by fresh_key.
  unfold sum_values. rewrite map_fold_singleton. lia.
Qed.

Lemma rows_save (k p : string) (d : gmap string Z) (db : database) (r : desconto) :
  r ∈ descontos (save_descontos k p d db) ->
  r ∈ descontos db \/
  (d_profissional_id r = k /\ d_period r = p /\ d !! d_campo r = Some (d_valor r)).
Proof.
  unfold save_descontos. case_decide; [by left |].
  revert r.
  apply (map_fold_weak_ind
           (fun db' d' => forall r, r ∈ descontos db' ->
              r ∈ descontos db \/
              (d_profissional_id r = k /\ d_period r = p /\
               d' !! d_campo r = Some (d_valor r)))).
  - intros r Hr. by left.
  - intros c v m db' Hc IH r Hr.
    apply rows_insert_or_replace in Hr as [[Hr _] | ->].
    + destruct (IH r Hr) as [Hold | (Hk & Hp & Hm)]; [by left |].
      right. split; [done |]. split; [done |].
      rewrite lookup_insert_ne; [done |]. intros ->. congruence.
    + right. simpl. by rewrite lookup_insert_eq.
Qed.

Lemma app_reachable_rows (db : database) :
  app_reachable db -> Forall row_from_page (descontos db).
Proof.
  induction 1 as [|db k p count _ IH Hcount]; [apply Forall_nil_2 |].
  rewrite Forall_forall in IH. apply Forall_forall. intros r Hr.
  apply rows_save in Hr as [Hold | (_ & _ & Hedit)]; [by apply IH |].
  rewrite edits_lookup in Hedit.
  destruct (WEIGHTS_NEGATIVOS !! d_campo r) as [peso|] eqn:Hpeso; [| done].
  injection Hedit as Hv. exists peso, (count (d_campo r)).
  split; [done |]. split; [apply Hcount | by rewrite <- Hv].
Qed.

Lemma app_reachable_lookup (db : database) (k p c : string) (v : Z) :
  app_reachable db ->
  load_descontos k p db !! c = Some v ->
  exists peso n, WEIGHTS_NEGATIVOS !! c = Some peso /\ 0 <= n /\ v = n * peso.
Proof.
  intros Hreach Hv. apply app_reachable_rows in Hreach.
  rewrite Forall_forall in Hreach.
  apply foldl_put_row_lookup_inv in Hv as [Hm | (r & Hr & <- & <-)];
    [by rewrite lookup_empty in Hm |].
  apply list_elem_of_filter in Hr as [_ Hr]. by apply Hreach.
Qed.

(** X12. In a ledger written through the detail page only (counts entered
    are never negative), every stored value is under a criterion of the
    negative-weight table and is a non-negative multiple of its weight.
    So the number of occurrences the page shows is never negative, and
    times the weight it gives the stored value back exactly. *)
Theorem X12_page_ledger_invariant
    (db : database) (k p campo : string) (peso : Z) :
  app_reachable db ->
  WEIGHTS_NEGATIVOS !! campo = Some peso ->
  dom (load_descontos k p db) ⊆ dom WEIGHTS_NEGATIVOS /\
  0 <= saved_val (load_descontos k p db) campo /\
  0 <= initial_count (load_descontos k p db) campo peso /\
  computed_val (initial_count (load_descontos k p db) campo peso) peso
  = saved_val (load_descontos k p db) campo.
Proof.
  intros Hreach Hpeso. split.
  { intros c Hc. apply elem_of_dom in Hc as [v Hv].
    destruct (app_reachable_lookup db k p c v Hreach Hv) as (w & _ & Hw & _).
    apply elem_of_dom. by exists w. }
  pose proof (weights_negativos_nonneg campo peso Hpeso) as Hnonneg.
  unfold initial_count, computed_val, saved_val.
  destruct (load_descontos k p db !! campo) as [v|] eqn:Hv; simpl.
  - destruct (app_reachable_lookup db k p campo v Hreach Hv)
      as (peso' & n & Hpeso' & Hn & ->).
    assert (peso' = peso) as -> by congruence.
    destruct (decide (peso = 0)) as [-> | Hne].
    + rewrite bool_decide_eq_false_2 by lia. simpl. lia.
    + rewrite bool_decide_eq_true_2 by done.
      rewrite (proj2 (Z.ltb_lt 0 peso)) by lia. simpl.
      rewrite Z.div_mul by done. split; [nia | split; [done | done]].
  - destruct (bool_decide (peso <> 0) && (0 <? peso)%Z); simpl;
      rewrite ?Zdiv_0_l; lia.
Qed.

Lemma X12_witness :
  saved_val (load_descontos "3321" "2025-03" page_db) "falta_dia" = 800 /\
  computed_val
    (initial_count (load_descontos "3321" "2025-03" page_db) "falta_dia" 400) 400
  = saved_val (load_descontos "3321" "2025-03" page_db) "falta_dia".
Proof.
  split; [vm_compute; reflexivity |].
  apply (X12_page_ledger_invariant page_db "3321" "2025-03" "falta_dia" 400).
  - apply app_reachable_salvar; [apply app_reachable_init |].
    intros campo. case_decide; lia.
  - reflexivity.
Defined.

Lemma union_absorb (d old : gmap string Z) :
  dom old ⊆ dom d -> d ∪ old = d.
Proof.
  intros Hsub. apply map_eq. intros i.
  destruct (d !! i) as [v|] eqn:Hd.
  - by apply lookup_union_Some_l.
  - rewrite lookup_union_r by done.
    apply not_elem_of_dom. intros Hi. apply Hsub, elem_of_dom in Hi as [v Hv].
    congruence.
Qed.

Lemma edits_dom (count : string -> Z) :
  dom (edits count) = dom WEIGHTS_NEGATIVOS.
Proof.
  apply set_eq. intros k. rewrite !elem_of_dom, edits_lookup.
  by rewrite fmap_is_Some.
Qed.

Lemma load_salvar (db : database) (k p : string) (count : string -> Z) :
  app_reachable db ->
  load_descontos k p (salvar k p count db) = edits count.
Proof.
  intros Hreach. unfold salvar. rewrite load_save_same.
  apply union_absorb. rewrite edits_dom.
  intros c Hc. apply elem_of_dom in Hc as [v Hv].
  destruct (app_reachable_lookup db k p c v Hreach Hv) as (w & _ & Hw & _).
  apply elem_of_dom. by exists w.
Qed.

(** X13. After the save button of the detail page, in a ledger written
    through the page only, the lookup for that professional and period is
    the edits, and the summary list shows for that key the negative points
    the detail page showed, the sum of the edits. *)
Theorem X13_list_agrees_with_detail
    (lower : string -> string) (db : database) (k p : string)
    (count : string -> Z) (df : list atendimento) :
  app_reachable db ->
  load_descontos k p (salvar k p count db) = edits count /\
  forall s, s ∈ resumo_por_profissional lower (salvar k p count db) p df ->
            r_profissional_id s = PStr k ->
            r_pontos_negativos s = sum_values (edits count).
Proof.
  intros Hreach. pose proof (load_salvar db k p count Hreach) as Hload.
  split; [exact Hload |].
  intros s Hs Hk. unfold resumo_por_profissional in Hs.
  apply list_elem_of_fmap in Hs as ([[pid pnome] g] & -> & _).
  simpl in *. rewrite Hk. simpl.
  by rewrite Hload, sum_values_load_or_zero.
Qed.

Lemma X13_witness :
  load_descontos "3321" "2025-04"
    (salvar "3321" "2025-04" (fun _ => 1) page_db)
  = edits (fun _ => 1).
Proof.
  apply (X13_list_agrees_with_detail lower_latin1 page_db "3321" "2025-04"
           (fun _ => 1) sample_df).
  apply app_reachable_salvar; [apply app_reachable_init |].
  intros campo. case_decide; lia.
Defined.

(** X14. Opening the detail page (no shown count is below the minimum 0 of
    its input) and saving without changing a number, on any ledger: every
    criterion of the table is stored as the shown count
    times the weight.  For a positive weight that is the stored value
    rounded down to a multiple of the weight, never more than the value,
    and the count shown next time is the same; for [falta_aso], of weight
    0, whatever was stored becomes 0. *)
Theorem X14_save_unchanged
    (db : database) (k p campo : string) (peso : Z) :
  WEIGHTS_NEGATIVOS !! campo = Some peso ->
  (forall c, 0 <= shown_count (load_descontos k p db) c) ->
  let old := load_descontos k p db in
  let new := load_descontos k p (salvar k p (shown_count old) db) in
  new !! campo = Some (shown_count old campo * peso) /\
  (0 < peso ->
   saved_val new campo = saved_val old campo `div` peso * peso /\
   saved_val new campo <= saved_val old campo /\
   shown_count new campo = shown_count old campo) /\
  (peso = 0 -> saved_val new campo = 0).
Proof.
  intros Hpeso _ old new.
  assert (Hnew : new !! campo = Some (shown_count old campo * peso)).
  { unfold new, salvar. rewrite load_save_same.
    apply lookup_union_Some_l. rewrite edits_lookup, Hpeso. done. }
  split; [exact Hnew |]. split.
  - intros Hpos.
    assert (Hshown : shown_count old campo = saved_val old campo `div` peso).
    { unfold shown_count, initial_count. rewrite Hpeso. simpl.
      rewrite bool_decide_eq_true_2 by lia.
      by rewrite (proj2 (Z.ltb_lt 0 peso)) by lia. }
    assert (Hsaved : saved_val new campo = saved_val old campo `div` peso * peso).
    { unfold saved_val at 1. by rewrite Hnew, Hshown. }
    split; [exact Hsaved |]. split.
    + rewrite Hsaved. pose proof (Z.mul_div_le (saved_val old campo) peso Hpos).
      lia.
    + rewrite Hshown. unfold shown_count, initial_count.
      rewrite Hpeso. simpl. rewrite bool_decide_eq_true_2 by lia.
      rewrite (proj2 (Z.ltb_lt 0 peso)) by lia.
      by rewrite Hsaved, Z.div_mul by lia.
  - intros ->. unfold saved_val. rewrite Hnew. simpl. lia.
Qed.

Lemma X14_witness :
  saved_val
    (load_descontos "3321" "2025-03"
       (salvar "3321" "2025-03"
          (shown_count (load_descontos "3321" "2025-03" odd_db)) odd_db))
    "falta_dia" = 400.
Proof.
  destruct (X14_save_unchanged odd_db "3321" "2025-03" "falta_dia" 400)
    as (_ & Hpos & _); [reflexivity | |].
  - intros c. unfold shown_count, initial_count, saved_val.
    replace (load_descontos "3321" "2025-03" odd_db)
      with ({[ "falta_dia" := 500 ]} : gmap string Z) by reflexivity.
    rewrite lookup_singleton. case_decide as Hc.
    + subst c. vm_compute. discriminate.
    + simpl. destruct (bool_decide _ && _); [by rewrite Zdiv_0_l | done].
  - destruct Hpos as (-> & _); [lia |]. vm_compute. reflexivity.
Defined.

Lemma load_key_nonneg (db : database) (key : pyval) (p : string) :
  app_reachable db ->
  map_Forall (fun _ v => 0 <= v) (load_descontos_key key p db).
Proof.
  intros Hreach c v Hv. destruct key as [| |k]; simpl in Hv;
    try (by rewrite lookup_empty in Hv).
  destruct (app_reachable_lookup db k p c v Hreach Hv) as (peso & n & Hpeso & Hn & ->).
  pose proof (weights_negativos_nonneg c peso Hpeso). nia.
Qed.

(** X15. With a ledger written through the detail page only, discounts
    never help: in every summary the negative points are at least 0, the
    final points are at most the positive points, and the tier is not
    above the tier the positive points alone would give. *)
Theorem X15_discounts_never_raise
    (lower : string -> string) (db : database) (selected_period : string)
    (df : list atendimento) (s : resumo) :
  app_reachable db ->
  s ∈ resumo_por_profissional lower db selected_period df ->
  0 <= r_pontos_negativos s /\
  r_pontos_finais s <= r_pontos_positivos s /\
  (tier_rank (r_classificacao s)
   <= tier_rank (classify_points (r_pontos_positivos s)))%nat.
Proof.
  intros Hreach Hs. unfold resumo_por_profissional in Hs.
  apply list_elem_of_fmap in Hs as ([[pid pnome] g] & -> & _). simpl.
  rewrite sum_values_load_or_zero.
  pose proof (sum_values_nonneg _
                (load_key_nonneg db (key_id pid pnome) selected_period Hreach))
    as Hneg.
  split; [exact Hneg |]. split; [lia |].
  apply classify_points_monotone. lia.
Qed.

Lemma X15_witness :
  Forall (fun s => r_pontos_finais s <= r_pontos_positivos s)
         (resumo_por_profissional lower_latin1 page_db "2025-03" sample_df).
Proof.
  apply Forall_forall. intros s Hs.
  apply (X15_discounts_never_raise lower_latin1 page_db "2025-03" sample_df s);
    [| exact Hs].
  apply app_reachable_salvar; [apply app_reachable_init |].
  intros campo. case_decide; lia.
Defined.

(** ** Report parsing helpers *)

Lemma try_find_column_Some (lower : string -> string)
    (cols candidates : list string) (c : string) :
  try_find_column lower cols candidates = Some c ->
  exists i cand n,
    candidates !! i = Some cand /\
    cols !! n = Some c /\ lower c = lower cand /\
    (forall m c', (m < n)%nat -> cols !! m = Some c' -> lower c' <> lower cand) /\
    (forall j cand' c', (j < i)%nat -> candidates !! j = Some cand' ->
                        c' ∈ cols -> lower c' <> lower cand').
Proof.
  induction candidates as [|cand candidates IH]; [done |]. simpl.
  destruct (list_find _ _) as [[n x]|] eqn:Hfind.
  - intros Hc. apply list_find_Some in Hfind as (Hn & -> & Hfirst).
    rewrite list_lookup_fmap in Hn.
    rewrite Hc in Hn. simpl in Hn. injection Hn as Hlow.
    exists 0%nat, cand, n. split; [done |]. split; [done |]. split; [done |].
    split.
    + intros m c' Hlt Hm Heq. apply (Hfirst m (lower c')); [| done | done].
      by rewrite list_lookup_fmap, Hm.
    + intros j cand' c' Hlt. lia.
  - intros Hc. apply list_find_None in Hfind. rewrite Forall_forall in Hfind.
    destruct (IH Hc) as (i & cand' & n & Hi & Hn & Hlow & Hfirst & Hprev).
    exists (S i), cand', n. split; [done |]. split; [done |]. split; [done |].
    split; [done |].
    intros [|j] cand'' c' Hlt Hj Hc'; simpl in Hj.
    + injection Hj as <-. apply Hfind. apply list_elem_of_fmap. by exists c'.
    + apply (Hprev j); [lia | done | done].
Qed.

Lemma try_find_column_None (lower : string -> string)
    (cols candidates : list string) :
  try_find_column lower cols candidates = None <->
  forall cand c, cand ∈ candidates -> c ∈ cols -> lower c <> lower cand.
Proof.
  induction candidates as [|cand candidates IH]; simpl.
  - split; [intros _ cand c Hcand; by apply elem_of_nil in Hcand | done].
  - destruct (list_find _ _) as [[n x]|] eqn:Hfind.
    + apply list_find_Some in Hfind as (Hn & -> & _).
      rewrite list_lookup_fmap in Hn.
      destruct (cols !! n) as [c|] eqn:Hc; [| done]. simpl in Hn.
      injection Hn as Hlow. split; [done |].
      intros Hall. exfalso. apply (Hall cand c); [left | | done].
      by apply list_elem_of_lookup_2 in Hc.
    + apply list_find_None in Hfind. rewrite Forall_forall in Hfind.
      rewrite IH. split.
      * intros Hall cand' c Hcand' Hc. apply elem_of_cons in Hcand' as [-> | Hcand'].
        -- apply Hfind. apply list_elem_of_fmap. by exists c.
        -- by apply Hall.
      * intros Hall cand' c Hcand' Hc. apply Hall; [by right | done].
Qed.

(** X16. [try_find_column] returns a column of the frame whose lowercase
    name is the lowercase of a candidate: of the first candidate that has
    such a column, and for it the first such column; it returns [None]
    exactly when no column matches any candidate.  With the positional
    fallback of [parse_xlsx], a frame with more than [n] columns always has
    a column for the role of position [n]. *)
Theorem X16_try_find_column
    (lower : string -> string) (cols candidates : list string) (n : nat) :
  (forall c, try_find_column lower cols candidates = Some c ->
     exists i cand k,
       candidates !! i = Some cand /\
       cols !! k = Some c /\ lower c = lower cand /\
       (forall m c', (m < k)%nat -> cols !! m = Some c' ->
                     lower c' <> lower cand) /\
       (forall j cand' c', (j < i)%nat -> candidates !! j = Some cand' ->
                           c' ∈ cols -> lower c' <> lower cand')) /\
  (try_find_column lower cols candidates = None <->
   forall cand c, cand ∈ candidates -> c ∈ cols -> lower c <> lower cand) /\
  ((n < length cols)%nat ->
   is_Some (column_or_position lower cols candidates n)).
Proof.
  split; [intros c; apply try_find_column_Some |].
  split; [apply try_find_column_None |].
  intros Hn. unfold column_or_position.
  destruct (try_find_column lower cols candidates); [done |].
  by apply lookup_lt_is_Some.
Qed.

Lemma X16_witness :
  is_Some (column_or_position lower_latin1 ["Medico"; "Dia"; "Servico"; "N"]
             ["quantidade"; "qtd"; "total"; "qte"] 3).
Proof.
  apply (X16_try_find_column lower_latin1 ["Medico"; "Dia"; "Servico"; "N"]
           ["quantidade"; "qtd"; "total"; "qte"] 3).
  simpl. lia.
Defined.

Lemma hyphen_cons (b : string) : "-" ++ b = String "-" b.
Proof. reflexivity. Qed.

Lemma no_hyphen_cons (c : ascii) (a : string) :
  c <> "-"%char -> ~ occurs "-" a -> ~ occurs "-" (String c a).
Proof.
  intros Hc Hno (u & v & Huv). destruct u as [|c' u].
  - rewrite append_nil_l, hyphen_cons in Huv. congruence.
  - rewrite append_cons in Huv. injection Huv as _ Huv.
    apply Hno. by exists u, v.
Qed.

Lemma no_hyphen_tail (c : ascii) (a : string) :
  ~ occurs "-" (String c a) -> ~ occurs "-" a.
Proof.
  intros Hno (u & v & Huv). apply Hno. exists (String c u), v.
  by rewrite append_cons, Huv.
Qed.

Lemma split_hyphen_Some (p a b : string) :
  split_hyphen p = Some (a, b) <-> p = a ++ "-" ++ b /\ ~ occurs "-" a.
Proof.
  revert a b. induction p as [|c p IH]; intros a b; simpl.
  - split; [done |]. intros [Hp _]. destruct a; discriminate Hp.
  - destruct (Ascii.eqb_spec c "-") as [-> | Hne].
    + split.
      * intros [= <- <-]. split; [reflexivity |].
        intros (x & y & Hxy). destruct x; discriminate Hxy.
      * intros [Hp Hno]. destruct a as [|c' a].
        -- rewrite append_nil_l, hyphen_cons in Hp. congruence.
        -- exfalso. apply Hno. rewrite append_cons in Hp.
           injection Hp as <- _. by exists "", a.
    + split.
      * destruct (split_hyphen p) as [[x y]|] eqn:Hsp; [| done].
        intros [= <- <-]. destruct (proj1 (IH x y) eq_refl) as [-> Hno].
        split; [by rewrite append_cons | by apply no_hyphen_cons].
      * intros [Hp Hno]. destruct a as [|c' a].
        -- rewrite append_nil_l, hyphen_cons in Hp. congruence.
        -- rewrite append_cons in Hp. injection Hp as <- Hp.
           apply no_hyphen_tail in Hno.
           by rewrite (proj2 (IH a b) (conj Hp Hno)).
Qed.

Lemma split_hyphen_None (p : string) :
  split_hyphen p = None <-> ~ occurs "-" p.
Proof.
  induction p as [|c p IH]; simpl.
  - split; [| done]. intros _ (x & y & Hxy). destruct x; discriminate Hxy.
  - destruct (Ascii.eqb_spec c "-") as [-> | Hne].
    + split; [done |]. intros Hno. exfalso. apply Hno. by exists "", p.
    + destruct (split_hyphen p) as [[x y]|] eqn:Hsp.
      * split; [done |]. intros Hno. exfalso.
        apply split_hyphen_Some in Hsp as [-> _].
        apply Hno. exists (String c x), y. by rewrite append_cons.
      * split; [| done]. intros _ (u & v & Huv).
        destruct u as [|c' u].
        -- rewrite append_nil_l, hyphen_cons in Huv. congruence.
        -- rewrite append_cons in Huv. injection Huv as _ Huv.
           apply (proj1 IH); [done |]. by exists u, v.
Qed.

Lemma split_id_not_empty (x : option string * string) : split_id x <> Some "".
Proof.
  unfold split_id. destruct x.1 as [s|]; [| discriminate].
  case_decide; [discriminate | congruence].
Qed.

(** X17. [split_prof] splits the stripped cell at its first hyphen: the
    id is the stripped text before it and the name the stripped text after
    it (which may hold further hyphens); a cell without hyphen has no id
    and is its own name.  So the id [parse_xlsx] stores is never the empty
    string, and a hyphenated name without a leading id loses its first
    part to the id column. *)
Theorem X17_split_prof (strip : string -> string) (cell : string) :
  (forall a b, strip cell = a ++ "-" ++ b -> ~ occurs "-" a ->
               split_prof strip (Some cell) = (Some (strip a), strip b)) /\
  (~ occurs "-" (strip cell) -> split_prof strip (Some cell) = (None, strip cell)) /\
  split_prof strip None = (None, "") /\
  (parse_profissional strip cell).1 <> Some "" /\
  parse_profissional strip_ascii "3321 - ANDERSON HERMENGILDO LUIZ PINTO"
  = (Some "3321", "ANDERSON HERMENGILDO LUIZ PINTO") /\
  parse_profissional strip_ascii "ANA-MARIA SILVA" = (Some "ANA", "MARIA SILVA") /\
  parse_profissional strip_ascii " MARIA SILVA " = (None, "MARIA SILVA").
Proof.
  split.
  { intros a b Hcell Hno. unfold split_prof.
    by rewrite (proj2 (split_hyphen_Some (strip cell) a b)). }
  split.
  { intros Hno. unfold split_prof.
    by rewrite (proj2 (split_hyphen_None (strip cell))). }
  split; [reflexivity |]. split.
  { unfold parse_profissional. cbn [fst]. apply split_id_not_empty. }
  repeat split; vm_compute; reflexivity.
Qed.

Lemma X17_witness :
  split_prof strip_ascii (Some "77 - JOSE-CARLOS")
  = (Some "77", "JOSE-CARLOS").
Proof.
  destruct (X17_split_prof strip_ascii "77 - JOSE-CARLOS") as (Hsplit & _).
  rewrite (Hsplit "77 " " JOSE-CARLOS").
  - vm_compute. reflexivity.
  - vm_compute. reflexivity.
  - intros Hocc. apply occurs_contains in Hocc. vm_compute in Hocc.
    discriminate Hocc.
Defined.

(** ** Detail page: the rows shown *)

Lemma filter_fmap_atendimento (P : atendimento -> Prop)
    `{!forall r, Decision (P r)} (l : list linha) :
  filter P (l_atendimento <$> l)
  = l_atendimento <$> filter (fun x => P (l_atendimento x)) l.
Proof.
  induction l as [|x l IH]; [done |].
  rewrite fmap_cons, !filter_cons. case_decide; by rewrite ?fmap_cons, IH.
Qed.

Lemma key_row_of_prof (r : atendimento) (pid : pyval) (pnome k : string) :
  group_key r = (pid, pnome) ->
  key_id pid pnome = PStr k ->
  a_profissional_id r = Some k \/ a_profissional r = k.
Proof.
  unfold group_key, key_id, key_cell. intros [= Hpid Hnome] Hkey.
  destruct (a_profissional_id r) as [id|]; subst pid; simpl in Hkey.
  - destruct (bool_decide (id = "") || bool_decide (id = "None")).
    + right. congruence.
    + left. congruence.
  - discriminate Hkey.
Qed.

(** X18. The detail page opened from a summary of key [k] (a string) shows
    every row of the group that summary was computed from: the rows of the
    group are exactly the rows shown whose (id, name) pair is that of the
    group.  The page can show more rows, those of another group whose id
    or name is [k]. *)
Theorem X18_detail_has_the_group
    (all_data : list linha) (selected_period k : string)
    (pid : pyval) (pnome : string) (g : list atendimento) :
  ((pid, pnome), g) ∈ groupby (data_period selected_period all_data) ->
  key_id pid pnome = PStr k ->
  g = filter (fun r => group_key r = (pid, pnome))
             (df_prof k selected_period all_data) /\
  g ⊆ df_prof k selected_period all_data.
Proof.
  intros Hg Hkey. apply groupby_rows in Hg.
  assert (Heq : g = filter (fun r => group_key r = (pid, pnome))
                           (df_prof k selected_period all_data)).
  { rewrite Hg. unfold data_period, df_prof.
    rewrite !filter_fmap_atendimento. f_equal.
    rewrite !list_filter_filter. apply list_filter_iff.
    intros x. split.
    - intros [Hk Hp]. split; [by split |].
      by apply (key_row_of_prof _ pid pnome k).
    - by intros [Hkp _]. }
  split; [exact Heq |].
  rewrite Heq. intros r Hr. by apply list_elem_of_filter in Hr as [_ Hr].
Qed.

Lemma X18_witness :
  length (df_prof "3321" "2025-03" sample_all_data) = 3%nat /\
  exists g, g ⊆ df_prof "3321" "2025-03" sample_all_data /\ length g = 2%nat.
Proof.
  split; [reflexivity |].
  exists (filter (fun r => group_key r = (PStr "3321", "ANA"))
                 (data_period "2025-03" sample_all_data)).
  split; [| reflexivity].
  apply (X18_detail_has_the_group sample_all_data "2025-03" "3321"
           (PStr "3321") "ANA").
  - vm_compute. apply list_elem_of_here.
  - reflexivity.
Defined.
